(** * Web-Scrapping.py: a shallow embedding and its verified properties

    The script fetches one Wikipedia page, extracts the first [wikitable]
    into a pandas DataFrame, exports it, and runs an interactive,
    case-insensitive substring search on the first column, narrating the
    results through a text-to-speech engine.

    The embedding follows the script top to bottom.  The third-party
    libraries it calls (requests, BeautifulSoup, pandas, pyttsx3, re) are
    modelled by their documented behaviour on the calls the script makes;
    the outside world (network, speech driver, file system, keyboard) is an
    explicit [environment] record.

    What is modelled, and what is not:
    - Text is modelled as strings of 8-bit code points read as Latin-1,
      the range on which [str.lower] and [str.strip] act code point by
      code point.  Text beyond that range is not modelled: there
      [str.lower] depends on the context (a capital sigma becomes a final
      or a medial sigma) and can change the length (U+0130), so no
      statement here speaks of letter case beyond what [PyStr.lower]
      itself gives.  The pictographs of the script's own messages are
      kept as the bytes of the source file.
    - The console is taken to accept what the script prints: a [print]
      that fails because the stream cannot encode a pictograph
      (UnicodeEncodeError) is not modelled.
    - The exceptions modelled are subclasses of [Exception], and
      [SystemExit]; the user is taken not to interrupt the process
      ([KeyboardInterrupt] is not modelled). *)

From Stdlib Require Import List String Ascii Bool Arith ZArith Lia.
From Stdlib Require Import Numbers.DecimalString.
Import ListNotations.

Open Scope string_scope.
Open Scope list_scope.
Open Scope nat_scope.

(** String concatenation, kept apart from list append. *)
Infix "+++" := String.append (right associativity, at level 60).

(* ================================================================== *)
(** ** Python strings *)
(* ================================================================== *)

Module PyStr.

Definition code (c : ascii) : nat := nat_of_ascii c.

(** [str.isspace] on one code point below 256. *)
Definition isspace (c : ascii) : bool :=
  let n := code c in
  ((9 <=? n) && (n <=? 13)) || ((28 <=? n) && (n <=? 32))
  || (n =? 133) || (n =? 160).

(** [str.lower] on one code point below 256: A-Z and the Latin-1
    capitals (all of 0xC0-0xDE but the multiplication sign 0xD7).  On
    text of such code points [str.lower] lowers each code point by
    itself, which is what [lower] below does; on other text it does not,
    and that text is outside this model. *)
Definition lower_char (c : ascii) : ascii :=
  let n := code c in
  if ((65 <=? n) && (n <=? 90))
     || ((192 <=? n) && (n <=? 222) && negb (n =? 215))
  then ascii_of_nat (n + 32) else c.

Fixpoint lower (s : string) : string :=
  match s with
  | EmptyString => EmptyString
  | String c s' => String (lower_char c) (lower s')
  end.

Fixpoint lstrip (s : string) : string :=
  match s with
  | EmptyString => EmptyString
  | String c s' => if isspace c then lstrip s' else s
  end.

(** Trailing whitespace: a character is dropped when it is a space and
    everything after it has been dropped. *)
Fixpoint rstrip (s : string) : string :=
  match s with
  | EmptyString => EmptyString
  | String c s' =>
      match rstrip s' with
      | EmptyString => if isspace c then EmptyString else String c EmptyString
      | r => String c r
      end
  end.

Definition strip (s : string) : string := rstrip (lstrip s).

(** ["="*40] and the like. *)
Fixpoint repeat (s : string) (n : nat) : string :=
  match n with
  | O => EmptyString
  | S n' => s +++ repeat s n'
  end.

(** [str(n)] for a non-negative integer. *)
Definition of_nat (n : nat) : string := NilEmpty.string_of_uint (Nat.to_uint n).

(** [str(z)] for an integer. *)
Definition of_Z (z : Z) : string :=
  match z with
  | Z0 => "0"
  | Zpos p => of_nat (Pos.to_nat p)
  | Zneg p => "-" +++ of_nat (Pos.to_nat p)
  end.

(** [needle in hay]: plain substring containment. *)
Fixpoint contains (needle hay : string) : bool :=
  String.prefix needle hay
  || match hay with
     | EmptyString => false
     | String _ hay' => contains needle hay'
     end.

End PyStr.

(* ================================================================== *)
(** ** The [re] module: [re.escape], pattern compilation, [search] *)
(* ================================================================== *)

Module Re.

(** The characters [re.escape] protects: CPython's [_special_chars_map],
    built from [b'()[]{}?*+-|^$\\.&~# \t\n\r\v\f']. *)
Definition special_chars : list ascii :=
  list_ascii_of_string "()[]{}?*+-|^$\.&~# "
  ++ map ascii_of_nat [9; 10; 13; 11; 12].

Definition is_special (c : ascii) : bool :=
  existsb (Ascii.eqb c) special_chars.

(** [re.escape(pattern)]: [pattern.translate(_special_chars_map)], every
    special character gets a backslash in front. *)
Fixpoint escape (pattern : string) : string :=
  match pattern with
  | EmptyString => EmptyString
  | String c rest =>
      if is_special c then String "\" (String c (escape rest))
      else String c (escape rest)
  end.

(** Outcome of compiling a pattern.  [Unsupported] marks pattern syntax
    that lies outside the fragment modelled here (repetition counts,
    [(?...)] extensions, an operator right after a repetition operator,
    alphanumeric escapes other than the control characters, escapes
    inside a set other than of punctuation); it is kept apart from
    [BadPattern], Python's [re.error]. *)
Inductive compiled (A : Type) : Type :=
| Compiled (a : A)
| BadPattern
| Unsupported.
Arguments Compiled {A} a.
Arguments BadPattern {A}.
Arguments Unsupported {A}.

Inductive set_item : Type :=
| SChar (c : ascii)
| SRange (lo hi : ascii).

Inductive token : Type :=
| TLit (c : ascii)
| TAny | TBol | TEol
| TStar | TPlus | TQuest
| TBar | TOpen | TClose
| TSet (negated : bool) (items : list set_item).

(** Where the scanner stands inside the pattern. *)
Inductive mode : Type :=
| MNormal
| MEscape
| MOpen
| MSetOpen
| MSetItem (negated : bool) (items : list set_item)
| MSetEsc (negated : bool) (items : list set_item)
| MSetPending (negated : bool) (items : list set_item) (p : ascii)
| MSetDash (negated : bool) (items : list set_item) (p : ascii).

Definition is_ascii_alnum (c : ascii) : bool :=
  let n := nat_of_ascii c in
  ((48 <=? n) && (n <=? 57)) || ((65 <=? n) && (n <=? 90))
  || ((97 <=? n) && (n <=? 122)).

(** A character read at top level. *)
Definition feed_normal (c : ascii) : compiled (list token * mode) :=
  if Ascii.eqb c "\" then Compiled ([], MEscape)
  else if Ascii.eqb c "." then Compiled ([TAny], MNormal)
  else if Ascii.eqb c "^" then Compiled ([TBol], MNormal)
  else if Ascii.eqb c "$" then Compiled ([TEol], MNormal)
  else if Ascii.eqb c "*" then Compiled ([TStar], MNormal)
  else if Ascii.eqb c "+" then Compiled ([TPlus], MNormal)
  else if Ascii.eqb c "?" then Compiled ([TQuest], MNormal)
  else if Ascii.eqb c "|" then Compiled ([TBar], MNormal)
  else if Ascii.eqb c ")" then Compiled ([TClose], MNormal)
  else if Ascii.eqb c "(" then Compiled ([], MOpen)
  else if Ascii.eqb c "[" then Compiled ([], MSetOpen)
  else if Ascii.eqb c "{" then Unsupported
  else Compiled ([TLit c], MNormal).

(** The character after a top-level backslash: a backslash followed by
    anything but an ASCII letter or digit stands for that character. *)
Definition feed_escape (c : ascii) : compiled (list token * mode) :=
  if is_ascii_alnum c then
    if Ascii.eqb c "n" then Compiled ([TLit (ascii_of_nat 10)], MNormal)
    else if Ascii.eqb c "t" then Compiled ([TLit (ascii_of_nat 9)], MNormal)
    else if Ascii.eqb c "r" then Compiled ([TLit (ascii_of_nat 13)], MNormal)
    else if Ascii.eqb c "f" then Compiled ([TLit (ascii_of_nat 12)], MNormal)
    else if Ascii.eqb c "v" then Compiled ([TLit (ascii_of_nat 11)], MNormal)
    else if Ascii.eqb c "a" then Compiled ([TLit (ascii_of_nat 7)], MNormal)
    else Unsupported
  else Compiled ([TLit c], MNormal).

(** A character read where a set expects its next member. *)
Definition feed_set_item (negated : bool) (items : list set_item) (c : ascii)
  : compiled (list token * mode) :=
  if Ascii.eqb c "]" then
    match items with
    | [] => Compiled ([], MSetPending negated items c)
    | _ :: _ => Compiled ([TSet negated (rev items)], MNormal)
    end
  else if Ascii.eqb c "\" then Compiled ([], MSetEsc negated items)
  else Compiled ([], MSetPending negated items c).

Definition feed (m : mode) (c : ascii) : compiled (list token * mode) :=
  match m with
  | MNormal => feed_normal c
  | MEscape => feed_escape c
  | MOpen =>
      if Ascii.eqb c "?" then Unsupported
      else match feed_normal c with
           | Compiled (ts, m') => Compiled (TOpen :: ts, m')
           | BadPattern => BadPattern
           | Unsupported => Unsupported
           end
  | MSetOpen =>
      if Ascii.eqb c "^" then Compiled ([], MSetItem true [])
      else feed_set_item false [] c
  | MSetItem negated items => feed_set_item negated items c
  | MSetEsc negated items =>
      if is_ascii_alnum c then Unsupported
      else Compiled ([], MSetPending negated items c)
  | MSetPending negated items p =>
      if Ascii.eqb c "-" then Compiled ([], MSetDash negated items p)
      else feed_set_item negated (SChar p :: items) c
  | MSetDash negated items p =>
      if Ascii.eqb c "]" then
        Compiled ([TSet negated (rev (SChar "-" :: SChar p :: items))], MNormal)
      else if Ascii.eqb c "\" then Unsupported
      else if nat_of_ascii c <? nat_of_ascii p then BadPattern
      else Compiled ([], MSetItem negated (SRange p c :: items))
  end.

(** End of pattern. *)
Definition finish (m : mode) : compiled (list token) :=
  match m with
  | MNormal => Compiled []
  | MOpen => Compiled [TOpen]
  | _ => BadPattern
  end.

Fixpoint lex (m : mode) (pattern : string) : compiled (list token) :=
  match pattern with
  | EmptyString => finish m
  | String c rest =>
      match feed m c with
      | Compiled (ts, m') =>
          match lex m' rest with
          | Compiled ts' => Compiled (ts ++ ts')
          | BadPattern => BadPattern
          | Unsupported => Unsupported
          end
      | BadPattern => BadPattern
      | Unsupported => Unsupported
      end
  end.

(** Compiled patterns. *)
Inductive regex : Type :=
| Empty
| Lit (c : ascii)
| Any
| Bol
| Eol
| OneOf (negated : bool) (items : list set_item)
| Cat (r1 r2 : regex)
| Alt (r1 r2 : regex)
| Star (r : regex)
| Plus (r : regex)
| Opt (r : regex).

(** One nesting level of the parser: the alternatives already closed by
    a bar and the pieces of the alternative being read, latest first. *)
Record frame : Type := mkFrame {
  branches : list regex;
  pieces : list regex;
  repeated : bool
}.

Definition empty_frame : frame := mkFrame [] [] false.

Definition seq_of (pieces : list regex) : regex :=
  fold_left (fun acc r => Cat r acc) pieces Empty.

Definition alt_of (f : frame) : regex :=
  fold_left (fun acc b => Alt b acc) (branches f) (seq_of (pieces f)).

Definition push_piece (r : regex) (f : frame) : frame :=
  mkFrame (branches f) (r :: pieces f) false.

Definition is_anchor (r : regex) : bool :=
  match r with Bol | Eol => true | _ => false end.

(** A repetition operator applies to the piece before it. *)
Definition repeat_piece (op : regex -> regex) (f : frame) : compiled frame :=
  match pieces f with
  | [] => BadPattern
  | r :: rs =>
      if is_anchor r then BadPattern
      else if repeated f then Unsupported
      else Compiled (mkFrame (branches f) (op r :: rs) true)
  end.

Definition parse_token (t : token) (st : frame * list frame)
  : compiled (frame * list frame) :=
  let (f, stack) := st in
  let atom r := Compiled (push_piece r f, stack) in
  let rep op :=
    match repeat_piece op f with
    | Compiled f' => Compiled (f', stack)
    | BadPattern => BadPattern
    | Unsupported => Unsupported
    end in
  match t with
  | TLit c => atom (Lit c)
  | TAny => atom Any
  | TBol => atom Bol
  | TEol => atom Eol
  | TSet negated items => atom (OneOf negated items)
  | TStar => rep Star
  | TPlus => rep Plus
  | TQuest => rep Opt
  | TBar => Compiled (mkFrame (seq_of (pieces f) :: branches f) [] false, stack)
  | TOpen => Compiled (empty_frame, f :: stack)
  | TClose =>
      match stack with
      | [] => BadPattern
      | parent :: stack' => Compiled (push_piece (alt_of f) parent, stack')
      end
  end.

Fixpoint parse (ts : list token) (st : frame * list frame) : compiled regex :=
  match ts with
  | [] =>
      match snd st with
      | [] => Compiled (alt_of (fst st))
      | _ :: _ => BadPattern
      end
  | t :: ts' =>
      match parse_token t st with
      | Compiled st' => parse ts' st'
      | BadPattern => BadPattern
      | Unsupported => Unsupported
      end
  end.

(** [re.compile(pattern)] with no flags. *)
Definition compile (pattern : string) : compiled regex :=
  match lex MNormal pattern with
  | Compiled ts => parse ts (empty_frame, [])
  | BadPattern => BadPattern
  | Unsupported => Unsupported
  end.

Definition item_has (c : ascii) (i : set_item) : bool :=
  match i with
  | SChar x => Ascii.eqb c x
  | SRange lo hi =>
      (nat_of_ascii lo <=? nat_of_ascii c) && (nat_of_ascii c <=? nat_of_ascii hi)
  end.

Definition newline : ascii := ascii_of_nat 10.

(** Zero or more rounds of [step]; a round that consumes nothing is not
    repeated, so [fuel] above the length of the text is never used up. *)
Fixpoint star (step : nat -> list ascii -> (nat -> list ascii -> bool) -> bool)
  (fuel : nat) (pos : nat) (text : list ascii)
  (k : nat -> list ascii -> bool) : bool :=
  k pos text
  || match fuel with
     | O => false
     | S fuel' =>
         step pos text
           (fun pos' text' => (pos <? pos') && star step fuel' pos' text' k)
     end.

(** [matches r pos text k]: [r] matches a prefix of [text], which starts
    at offset [pos] of the subject, and [k] accepts what is left. *)
Fixpoint matches (r : regex) (pos : nat) (text : list ascii)
  (k : nat -> list ascii -> bool) : bool :=
  match r with
  | Empty => k pos text
  | Lit c =>
      match text with
      | x :: text' => Ascii.eqb x c && k (S pos) text'
      | [] => false
      end
  | Any =>
      match text with
      | x :: text' => negb (Ascii.eqb x newline) && k (S pos) text'
      | [] => false
      end
  | Bol => (pos =? 0) && k pos text
  | Eol =>
      match text with
      | [] => k pos text
      | [x] => Ascii.eqb x newline && k pos text
      | _ => false
      end
  | OneOf negated items =>
      match text with
      | x :: text' => xorb negated (existsb (item_has x) items) && k (S pos) text'
      | [] => false
      end
  | Cat r1 r2 => matches r1 pos text (fun pos' text' => matches r2 pos' text' k)
  | Alt r1 r2 => matches r1 pos text k || matches r2 pos text k
  | Star r1 => star (matches r1) (S (List.length text)) pos text k
  | Plus r1 =>
      matches r1 pos text
        (fun pos' text' => star (matches r1) (S (List.length text')) pos' text' k)
  | Opt r1 => k pos text || matches r1 pos text k
  end.

Fixpoint search_from (r : regex) (pos : nat) (text : list ascii) : bool :=
  matches r pos text (fun _ _ => true)
  || match text with
     | [] => false
     | _ :: text' => search_from r (S pos) text'
     end.

(** [pattern.search(s) is not None]. *)
Definition search (r : regex) (s : string) : bool :=
  search_from r 0 (list_ascii_of_string s).

End Re.

(* ================================================================== *)
(** ** Exceptions, the world, and the monad the script runs in *)
(* ================================================================== *)

(** The subclasses of [Exception] the script can meet; the string is
    what [str(e)] gives.  An exception that is not an [Exception], such
    as [KeyboardInterrupt], passes every [except Exception] of the script
    and is not modelled: the environment can only make a call fail with
    one of these. *)
Inductive error : Type :=
| IndexError (msg : string)
| KeyError (msg : string)
| AttributeError (msg : string)
| ValueError (msg : string)
| EOFError (msg : string)
| OSError (msg : string)
| RuntimeError (msg : string)
| ImportError (msg : string)
| ReError (msg : string)
| ConnectionError (msg : string)      (* requests.exceptions.ConnectionError *)
| Timeout (msg : string)              (* requests.exceptions.Timeout *)
| HTTPError (msg : string)            (* requests.exceptions.HTTPError *)
| TooManyRedirects (msg : string).    (* requests.exceptions.TooManyRedirects *)

Definition str_of_error (e : error) : string :=
  match e with
  | IndexError m | KeyError m | AttributeError m | ValueError m | EOFError m
  | OSError m | RuntimeError m | ImportError m | ReError m
  | ConnectionError m | Timeout m | HTTPError m | TooManyRedirects m => m
  end.

(** [isinstance(e, requests.exceptions.RequestException)]. *)
Definition is_RequestException (e : error) : bool :=
  match e with
  | ConnectionError _ | Timeout _ | HTTPError _ | TooManyRedirects _ => true
  | _ => false
  end.

(** [isinstance(e, IndexError)]. *)
Definition is_IndexError (e : error) : bool :=
  match e with
  | IndexError _ => true
  | _ => false
  end.

(** [isinstance(e, Exception)]. *)
Definition is_Exception (e : error) : bool := true.

(** What can unwind the script: [SystemExit] (raised by [exit(code)],
    not an [Exception]), an [Exception], or [OutsideModel], which the
    embedding raises when a library is driven outside the fragment
    modelled here. *)
Inductive exn : Type :=
| SystemExit (code : Z)
| Exc (e : error)
| OutsideModel.

(** A pandas DataFrame: column labels and rows of cells; a cell is a
    string or missing. *)
Record DataFrame : Type := mkDataFrame {
  columns : list string;
  data : list (list (option string))
}.

(** What the script does to the outside, in order. *)
Inductive event : Type :=
| EPrint (line : string)                  (* print(...) *)
| EPrintFrame (d : DataFrame)             (* print(d.to_string(index=False)) *)
| ESay (utterance : string)               (* engine.say queued it *)
| ESpoken                                 (* engine.runAndWait returned *)
| EGet (url : string) (headers : list (string * string)) (* requests.get *)
| EToCsv (path : string)                  (* df.to_csv called *)
| EToExcel (path : string)                (* df.to_excel called *)
| EPrompt (prompt : string)               (* input(prompt) *)
| ETraceback (e : error).                 (* the interpreter's report of an
                                             uncaught exception *)

(** The state threaded through the script: the console and device
    output so far, the DataFrame objects alive (a name of the script
    holds an index into this store), and how many times [speak] ran. *)
Record world : Type := mkWorld {
  console : list event;
  frames : list DataFrame;
  speak_calls : nat
}.

Definition initial_world : world := mkWorld [] [] 0.

Inductive result (A : Type) : Type :=
| Ok (a : A)
| Raise (e : exn).
Arguments Ok {A} a.
Arguments Raise {A} e.

Definition M (A : Type) : Type := world -> result A * world.

Definition ret {A} (a : A) : M A := fun w => (Ok a, w).

Definition raise {A} (e : exn) : M A := fun w => (Raise e, w).

Definition bind {A B} (c : M A) (k : A -> M B) : M B :=
  fun w =>
    match c w with
    | (Ok a, w') => k a w'
    | (Raise e, w') => (Raise e, w')
    end.

Declare Scope py_scope.
Delimit Scope py_scope with py.
Notation "x <- c ;; k" := (bind c (fun x => k))
  (at level 100, c at next level, right associativity) : py_scope.
Notation "c ;; k" := (bind c (fun _ => k))
  (at level 100, right associativity) : py_scope.
Open Scope py_scope.

(** [try: body  except <class> as e: handler e]. *)
Definition try_except {A} (body : M A) (handles : error -> bool)
  (handler : error -> M A) : M A :=
  fun w =>
    match body w with
    | (Raise (Exc e), w') =>
        if handles e then handler e w' else (Raise (Exc e), w')
    | other => other
    end.

Definition emit (e : event) : M unit :=
  fun w => (Ok tt, mkWorld (console w ++ [e]) (frames w) (speak_calls w)).

(** [print(line)], on a console that accepts the line. *)
Definition print (line : string) : M unit := emit (EPrint line).

(** [exit(code)]. *)
Definition exit {A} (code : Z) : M A := raise (SystemExit code).

(** Lift a library result that either returns or raises. *)
Definition lift {A} (r : result A) : M A := fun w => (r, w).

(** A new DataFrame object; the script gets its index in the store. *)
Definition alloc_frame (d : DataFrame) : M nat :=
  fun w => (Ok (List.length (frames w)),
            mkWorld (console w) (frames w ++ [d]) (speak_calls w)).

Definition read_frame (ref : nat) : M DataFrame :=
  fun w =>
    match nth_error (frames w) ref with
    | Some d => (Ok d, w)
    | None => (Raise OutsideModel, w)
    end.

(** Run every action of a list in order (a [for] loop over its items). *)
Fixpoint for_each {A} (items : list A) (body : A -> M unit) : M unit :=
  match items with
  | [] => ret tt
  | x :: rest => body x ;; for_each rest body
  end.

(* ================================================================== *)
(** ** The outside world *)
(* ================================================================== *)

(** A [requests.Response]. *)
Record response : Type := mkResponse {
  status_code : Z;
  reason : string;
  text : string
}.

(** BeautifulSoup tags.  A row is given by the [<td>] and [<th>] tags
    found inside it in document order, a table by its [<tr>] tags. *)
Inductive cell_kind : Type := th | td.

Record cell : Type := mkCell {
  kind : cell_kind;
  cell_text : string            (* tag.text *)
}.

Definition tr : Type := list cell.

Record table_tag : Type := mkTable {
  find_all_tr : list tr         (* table.find_all("tr") *)
}.

Record environment : Type := mkEnv {
  (** [pyttsx3.init()]: the failure it raises, if any. *)
  tts_init : option error;
  (** [engine.say] and [engine.runAndWait] in the n-th call of [speak]. *)
  tts_say : nat -> string -> option error;
  tts_runAndWait : nat -> option error;
  (** [requests.get(url, headers=...)]. *)
  http_get : string -> list (string * string) -> error + response;
  (** [BeautifulSoup(text, 'html.parser').find("table", class_="wikitable")]. *)
  find_wikitable : string -> option table_tag;
  (** [df.to_csv] and [df.to_excel]: the failure raised, if any. *)
  to_csv : DataFrame -> string -> option error;
  to_excel : DataFrame -> string -> option error;
  (** The lines typed at the prompt; [input] raises [EOFError] after them. *)
  stdin : list string
}.

(* ================================================================== *)
(** ** pandas: the calls the script makes *)
(* ================================================================== *)

Module Pandas.

Definition width (rows : list (list string)) : nat :=
  fold_right (fun r acc => Nat.max (List.length r) acc) 0 rows.

(** Short rows of a nested list are filled with missing values. *)
Definition pad (w : nat) (row : list string) : list (option string) :=
  map Some row ++ List.repeat None (w - List.length row).

(** [pd.DataFrame(rows, columns=cols)] for a list of lists. *)
Definition DataFrame_of_rows (rows : list (list string)) (cols : list string)
  : result DataFrame :=
  match rows with
  | [] => Ok (mkDataFrame cols [])
  | _ :: _ =>
      let w := width rows in
      if w =? List.length cols then Ok (mkDataFrame cols (map (pad w) rows))
      else Raise (Exc (ValueError
             (PyStr.of_nat (List.length cols) +++ " columns passed, passed data had "
              +++ PyStr.of_nat w +++ " columns")))
  end.

(** [df.empty]: some axis has length zero. *)
Definition empty (d : DataFrame) : bool :=
  (List.length (data d) =? 0) || (List.length (columns d) =? 0).

(** [df.head()]: the first five rows. *)
Definition head (d : DataFrame) : DataFrame :=
  mkDataFrame (columns d) (firstn 5 (data d)).

(** The positions at which a label occurs among the labels. *)
Fixpoint positions_from (i : nat) (label : string) (labels : list string)
  : list nat :=
  match labels with
  | [] => []
  | l :: rest =>
      if String.eqb l label then i :: positions_from (S i) label rest
      else positions_from (S i) label rest
  end.

Definition positions (label : string) (labels : list string) : list nat :=
  positions_from 0 label labels.

Definition cell_at (row : list (option string)) (i : nat) : option string :=
  nth i row None.

(** What indexing by a label gives: a Series when the label is unique,
    a DataFrame of all the columns carrying it when it is repeated. *)
Inductive selection : Type :=
| ASeries (values : list (option string))
| AFrame (d : DataFrame).

(** [df[label]]. *)
Definition getitem (d : DataFrame) (label : string) : result selection :=
  match positions label (columns d) with
  | [] => Raise (Exc (KeyError label))
  | [i] => Ok (ASeries (map (fun row => cell_at row i) (data d)))
  | ps =>
      Ok (AFrame (mkDataFrame (map (fun _ => label) ps)
                    (map (fun row => map (cell_at row) ps) (data d))))
  end.

(** The [.str] accessor: a Series has it, a DataFrame does not. *)
Definition str (s : selection) : result (list (option string)) :=
  match s with
  | ASeries values => Ok values
  | AFrame _ =>
      Raise (Exc (AttributeError "'DataFrame' object has no attribute 'str'"))
  end.

(** [series.str.lower()]: missing values stay missing. *)
Definition str_lower (values : list (option string)) : list (option string) :=
  map (option_map PyStr.lower) values.

(** [series.str.contains(pat, na=False)]: [pat] is compiled as a regular
    expression and searched for in every value; a missing value gives
    [False]. *)
Definition str_contains (values : list (option string)) (pat : string)
  : result (list bool) :=
  match Re.compile pat with
  | Re.Compiled r =>
      Ok (map (fun v => match v with
                        | Some s => Re.search r s
                        | None => false
                        end) values)
  | Re.BadPattern => Raise (Exc (ReError pat))
  | Re.Unsupported => Raise OutsideModel
  end.

Fixpoint select {A} (mask : list bool) (rows : list A) : list A :=
  match mask, rows with
  | b :: mask', r :: rows' =>
      if b then r :: select mask' rows' else select mask' rows'
  | _, _ => []
  end.

(** [df[mask]] for a boolean Series: a new DataFrame with the rows
    whose mask entry is true. *)
Definition boolean_index (d : DataFrame) (mask : list bool) : DataFrame :=
  mkDataFrame (columns d) (select mask (data d)).

(** [str(value)] of a cell inside an f-string. *)
Definition str_of_cell (v : option string) : string :=
  match v with
  | Some s => s
  | None => "None"
  end.

(** [row[label]] for a row taken with [iloc], formatted in an f-string:
    the cell when the label is unique.  With a repeated label the lookup
    gives a Series of several cells, which pandas prints with its index
    and a footer; that text is only stood for here, by the cells one per
    line, and nothing is stated about it. *)
Definition format_lookup (labels : list string) (row : list (option string))
  (label : string) : string :=
  match positions label labels with
  | [i] => str_of_cell (cell_at row i)
  | ps => String.concat (String (ascii_of_nat 10) EmptyString)
            (map (fun i => str_of_cell (cell_at row i)) ps)
  end.

End Pandas.

(* ================================================================== *)
(** ** The script *)
(* ================================================================== *)

Definition nl : string := String (ascii_of_nat 10) EmptyString.

Fixpoint enumerate_from {A} (i : nat) (xs : list A) : list (nat * A) :=
  match xs with
  | [] => []
  | x :: rest => (i, x) :: enumerate_from (S i) rest
  end.

Section Script.

Variable env : environment.

(** Line 9: [engine = pyttsx3.init()], at module level, outside any [try]. *)
Definition init_engine : M unit :=
  match tts_init env with
  | None => ret tt
  | Some e => raise (Exc e)
  end.

Definition engine_say (n : nat) (text : string) : M unit :=
  match tts_say env n text with
  | None => emit (ESay text)
  | Some e => raise (Exc e)
  end.

Definition engine_runAndWait (n : nat) : M unit :=
  match tts_runAndWait env n with
  | None => emit ESpoken
  | Some e => raise (Exc e)
  end.

Definition next_speak_call : M nat :=
  fun w => (Ok (speak_calls w),
            mkWorld (console w) (frames w) (S (speak_calls w))).

(** Lines 11-20. *)
Definition speak (text : string) : M unit :=
  print ("🗣️ " +++ text) ;;
  n <- next_speak_call ;;
  try_except
    (engine_say n text ;;
     engine_runAndWait n)
    is_Exception
    (fun _ => ret tt).

Definition url : string :=
  "https://en.wikipedia.org/wiki/List_of_countries_by_number_of_military_and_paramilitary_personnel".

(** [res.raise_for_status()]: an [HTTPError] for 4xx and 5xx. *)
Definition raise_for_status (res : response) : M unit :=
  let code := PyStr.of_Z (status_code res) in
  if ((400 <=? status_code res) && (status_code res <? 500))%Z then
    raise (Exc (HTTPError (code +++ " Client Error: " +++ reason res
                           +++ " for url: " +++ url)))
  else if ((500 <=? status_code res) && (status_code res <? 600))%Z then
    raise (Exc (HTTPError (code +++ " Server Error: " +++ reason res
                           +++ " for url: " +++ url)))
  else ret tt.

Definition requests_get (u : string) (headers : list (string * string))
  : M response :=
  emit (EGet u headers) ;;
  match http_get env u headers with
  | inr res => ret res
  | inl e => raise (Exc e)
  end.

(** Lines 27-34. *)
Definition fetch : M response :=
  try_except
    (let headers := [("User-Agent", "Custom Data Scraper v1.0")] in
     res <- requests_get url headers ;;
     raise_for_status res ;;
     ret res)
    is_RequestException
    (fun e =>
       speak ("FATAL ERROR: Could not connect to Wikipedia. Details: "
              +++ str_of_error e) ;;
       exit 1%Z).

(** Lines 36-44. *)
Definition locate_table (res : response) : M table_tag :=
  match find_wikitable env (text res) with
  | None =>
      speak "ERROR: Could not find the expected data table on the Wikipedia page." ;;
      exit 1%Z
  | Some table => ret table
  end.

(** [row.find_all("th")]. *)
Definition find_all_th (row : tr) : list cell :=
  filter (fun c => match kind c with th => true | td => false end) row.

(** [row.find_all(["td", "th"])]. *)
Definition find_all_td_th (row : tr) : list cell := row.

(** [xs[0]] on a list. *)
Definition first_item {A} (xs : list A) : M A :=
  match xs with
  | [] => raise (Exc (IndexError "list index out of range"))
  | x :: _ => ret x
  end.

(** Lines 48-53. *)
Definition read_headers (table : table_tag) : M (list string) :=
  try_except
    (row0 <- first_item (find_all_tr table) ;;
     ret (map (fun c => PyStr.strip (cell_text c)) (find_all_th row0)))
    is_IndexError
    (fun _ =>
       speak "ERROR: Table appears empty or headers could not be read." ;;
       exit 1%Z).

(** Lines 56-66: the loop over [table.find_all("tr")[1:]], appending to
    [rows]. *)
Definition extract_rows (headers : list string) (table : table_tag)
  : list (list string) :=
  fold_left
    (fun rows row =>
       let cols := find_all_td_th row in
       let cols := map (fun col => PyStr.strip (cell_text col)) cols in
       if List.length headers <=? List.length cols
       then rows ++ [firstn (List.length headers) cols]
       else rows)
    (tl (find_all_tr table))
    [].

(** Lines 70-76. *)
Definition build_frame (rows : list (list string)) (headers : list string)
  : M nat :=
  d <- lift (Pandas.DataFrame_of_rows rows headers) ;;
  df <- alloc_frame d ;;
  print (nl +++ PyStr.repeat "=" 40) ;;
  print "👉 Successfully Scraped Data Columns:" ;;
  d <- read_frame df ;;
  for_each (enumerate_from 0 (columns d))
    (fun '(i, col) =>
       print ("  " +++ PyStr.of_nat (i + 1) +++ ". '" +++ col +++ "'")) ;;
  print (PyStr.repeat "=" 40 +++ nl) ;;
  ret df.

Definition df_to_csv (df : nat) (path : string) : M unit :=
  d <- read_frame df ;;
  emit (EToCsv path) ;;
  match to_csv env d path with
  | None => ret tt
  | Some e => raise (Exc e)
  end.

Definition df_to_excel (df : nat) (path : string) : M unit :=
  d <- read_frame df ;;
  emit (EToExcel path) ;;
  match to_excel env d path with
  | None => ret tt
  | Some e => raise (Exc e)
  end.

(** Lines 79-84. *)
Definition export (df : nat) : M unit :=
  try_except
    (df_to_csv df "military_personnel_data.csv" ;;
     df_to_excel df "military_personnel_data.xlsx" ;;
     speak "Data successfully structured and saved as CSV and Excel files.")
    is_Exception
    (fun e => speak ("WARNING: Could not save files. Details: " +++ str_of_error e)).

(** Line 89: [df.columns[0]]. *)
Definition first_column (df : nat) : M string :=
  d <- read_frame df ;;
  match columns d with
  | [] => raise (Exc (IndexError "index 0 is out of bounds for axis 0 with size 0"))
  | c :: _ => ret c
  end.

(** Line 108: [df[df[name_col].str.lower().str.contains(pattern, na=False)]],
    a new DataFrame object. *)
Definition filter_frame (d : DataFrame) (name_col pattern : string)
  : result DataFrame :=
  match Pandas.getitem d name_col with
  | Raise e => Raise e
  | Ok column =>
      match Pandas.str column with
      | Raise e => Raise e
      | Ok values =>
          match Pandas.str_contains (Pandas.str_lower values) pattern with
          | Raise e => Raise e
          | Ok mask => Ok (Pandas.boolean_index d mask)
          end
      end
  end.

(** Lines 110-129: what is shown and said for a result. *)
Definition report (df result : nat) (name_col search : string) : M unit :=
  r <- read_frame result ;;
  if negb (Pandas.empty r) then
    print (nl +++ "--- Top Matching Results ---") ;;
    emit (EPrintFrame (Pandas.head r)) ;;
    print (PyStr.repeat "-" 30) ;;
    row <- first_item (data r) ;;
    d <- read_frame df ;;
    let country_info :=
      map (fun col => col +++ ": " +++ Pandas.format_lookup (columns r) row col)
          (columns d) in
    speak ("Found information for "
           +++ Pandas.format_lookup (columns r) row name_col +++ ".") ;;
    for_each (tl country_info) speak ;;
    speak ("Search complete. " +++ PyStr.of_nat (List.length (data r))
           +++ " total result(s) found for '" +++ search +++ "'.")
  else
    speak ("No matching record found for '" +++ search
           +++ "'. Try a shorter, more general name.").

Inductive control : Type := Break | Continue.

(** Lines 93-129: one pass through the body of [while True], given the
    line [input] returned. *)
Definition iteration (df : nat) (name_col line : string) : M control :=
  let search := PyStr.strip line in
  if String.eqb (PyStr.lower search) "exit" then
    speak "Session terminated. Goodbye!" ;;
    ret Break
  else if String.eqb search "" then
    speak "Please enter a country name to search." ;;
    ret Continue
  else
    let pattern := Re.escape (PyStr.lower search) in
    d <- read_frame df ;;
    r <- lift (filter_frame d name_col pattern) ;;
    result <- alloc_frame r ;;
    report df result name_col search ;;
    ret Continue.

Definition prompt : string :=
  nl +++ "🔍 Enter country name to search (or type 'exit' to quit): ".

(** Lines 92-129: [while True], one line of input per pass; [input]
    raises [EOFError] when the input is used up. *)
Fixpoint search_loop (df : nat) (name_col : string) (lines : list string)
  : M unit :=
  emit (EPrompt prompt) ;;
  match lines with
  | [] => raise (Exc (EOFError "EOF when reading a line"))
  | line :: rest =>
      c <- iteration df name_col line ;;
      match c with
      | Break => ret tt
      | Continue => search_loop df name_col rest
      end
  end.

(** Lines 87-129. *)
Definition interactive_search (df : nat) : M unit :=
  name_col <- first_column df ;;
  speak ("Starting interactive search. Searching on the column: '"
         +++ name_col +++ "'.") ;;
  search_loop df name_col (stdin env).

(** Lines 36-129, once the page is there. *)
Definition process (res : response) : M unit :=
  table <- locate_table res ;;
  headers <- read_headers table ;;
  let rows := extract_rows headers table in
  df <- build_frame rows headers ;;
  export df ;;
  interactive_search df.

(** The whole module, top to bottom. *)
Definition script : M unit :=
  init_engine ;;
  speak "Starting data fetch from Wikipedia..." ;;
  res <- fetch ;;
  process res.

(** The process as the operating system sees it: exit status and
    output.  An exception that reaches the top is reported by the
    interpreter with a traceback and status 1; [SystemExit] carries its
    own status. *)
Definition run : option (Z * list event) :=
  match script initial_world with
  | (Ok _, w) => Some (0%Z, console w)
  | (Raise (SystemExit code), w) => Some (code, console w)
  | (Raise (Exc e), w) => Some (1%Z, console w ++ [ETraceback e])
  | (Raise OutsideModel, _) => None
  end.

End Script.

(* ================================================================== *)
(** ** Vocabulary of the statements *)
(* ================================================================== *)

(** [hay] has [needle] as a substring. *)
Definition substring_of (needle hay : string) : Prop :=
  exists pre post, hay = pre +++ needle +++ post.

(** The pattern that matches the characters of a text one by one. *)
Definition literal (chars : list ascii) : Re.regex :=
  fold_right (fun c acc => Re.Cat (Re.Lit c) acc) Re.Empty chars.

(** The row's value in the first column, lowered, contains the lowered
    query. *)
Definition entity_matches (query : string) (row : list (option string)) : bool :=
  match Pandas.cell_at row 0 with
  | Some v => PyStr.contains (PyStr.lower query) (PyStr.lower v)
  | None => false
  end.

(** The output of one call of [speak], the n-th, on [text]. *)
Definition spoken (env : environment) (n : nat) (text : string) : list event :=
  EPrint ("🗣️ " +++ text)
  :: match tts_say env n text with
     | Some _ => []
     | None =>
         ESay text
         :: match tts_runAndWait env n with
            | Some _ => []
            | None => [ESpoken]
            end
     end.

(** The world after one call of [speak]. *)
Definition after_speak (env : environment) (text : string) (w : world) : world :=
  mkWorld (console w ++ spoken env (speak_calls w) text)
          (frames w) (S (speak_calls w)).

(** The world after some more output. *)
Definition log (es : list event) (w : world) : world :=
  mkWorld (console w ++ es) (frames w) (speak_calls w).

(** The world after [speak] ran on each text in turn. *)
Definition after_speaking (env : environment) (texts : list string) (w : world)
  : world :=
  fold_left (fun w' t => after_speak env t w') texts w.

(** The stripped texts of all the cells of a row, as line 60-61 read them. *)
Definition stripped_cells (row : tr) : list string :=
  map (fun col => PyStr.strip (cell_text col)) (find_all_td_th row).

(** The request header the script sends. *)
Definition request_headers : list (string * string) :=
  [("User-Agent", "Custom Data Scraper v1.0")].

(** [requests.get] was called. *)
Definition is_get (e : event) : bool :=
  match e with
  | EGet _ _ => true
  | _ => false
  end.

(** [df.to_excel] was called. *)
Definition is_to_excel (e : event) : bool :=
  match e with
  | EToExcel _ => true
  | _ => false
  end.

(** What lines 72-76 print for the column labels of the new table. *)
Definition column_listing (cols : list string) : list event :=
  [EPrint (nl +++ PyStr.repeat "=" 40);
   EPrint "👉 Successfully Scraped Data Columns:"]
  ++ map (fun '(i, col) =>
            EPrint ("  " +++ PyStr.of_nat (i + 1) +++ ". '" +++ col +++ "'"))
       (enumerate_from 0 cols)
  ++ [EPrint (PyStr.repeat "=" 40 +++ nl)].

(** The store of DataFrame objects only grew from [w] to [w']. *)
Definition extends (w w' : world) : Prop :=
  exists fresh, frames w' = frames w ++ fresh.

(** A computation that never changes or drops a DataFrame object. *)
Definition append_only {A} (c : M A) : Prop :=
  forall w, extends w (snd (c w)).

(** The message of the [HTTPError] that [raise_for_status] raises. *)
Definition http_error_message (res : response) : string :=
  PyStr.of_Z (status_code res)
  +++ (if (status_code res <? 500)%Z then " Client Error: " else " Server Error: ")
  +++ reason res +++ " for url: " +++ url.

(** The status is one [raise_for_status] lets through. *)
Definition passes_status (res : response) : Prop :=
  (status_code res < 400 \/ 600 <= status_code res)%Z.

(** The world when the page has been fetched. *)
Definition fetched (env : environment) : world :=
  log [EGet url request_headers]
    (after_speak env "Starting data fetch from Wikipedia..." initial_world).

(** The fetch fails with the given details: the request raised a
    [RequestException], or the response came with a 4xx or 5xx status. *)
Definition fetch_fails (env : environment) (details : string) : Prop :=
  (exists e, http_get env url request_headers = inl e
             /\ is_RequestException e = true
             /\ details = str_of_error e)
  \/ (exists res, http_get env url request_headers = inr res
                  /\ (400 <= status_code res < 600)%Z
                  /\ details = http_error_message res).

Definition csv_path : string := "military_personnel_data.csv".
Definition xlsx_path : string := "military_personnel_data.xlsx".

Definition warning (e : error) : string :=
  "WARNING: Could not save files. Details: " +++ str_of_error e.

(* ================================================================== *)
(** ** Sample tables and environments *)
(* ================================================================== *)

Definition sample_table : table_tag :=
  mkTable
    [[mkCell th "Country"; mkCell th "Active Personnel"];
     [mkCell th "France"; mkCell td "200000"];
     [mkCell td "Germany"; mkCell td "180000"]].

Definition sample_frame : DataFrame :=
  mkDataFrame ["Country"; "Active Personnel"]
    [[Some "France"; Some "200000"]; [Some "Germany"; Some "180000"]].

(** A table with no row at all, and one whose first row has data cells
    only. *)
Definition rowless_table : table_tag := mkTable [].

Definition headerless_table : table_tag :=
  mkTable [[mkCell td "Country"; mkCell td "Active Personnel"];
           [mkCell td "France"; mkCell td "200000"]].

(** A machine where everything works: the page arrives with the given
    status, holds the given table, and the user types the given lines. *)
Definition sample_env (status : Z) (table : table_tag) (lines : list string)
  : environment :=
  mkEnv None (fun _ _ => None) (fun _ => None)
        (fun _ _ => inr (mkResponse status "" "<html>"))
        (fun _ => Some table)
        (fun _ _ => None) (fun _ _ => None) lines.

(** The same machine with the network down. *)
Definition offline_env : environment :=
  mkEnv None (fun _ _ => None) (fun _ => None)
        (fun _ _ => inl (ConnectionError "Max retries exceeded"))
        (fun _ => Some sample_table)
        (fun _ _ => None) (fun _ _ => None) [].

(** The same machine with a full disk: [to_csv] fails. *)
Definition full_disk_env : environment :=
  mkEnv None (fun _ _ => None) (fun _ => None)
        (fun _ _ => inr (mkResponse 200 "OK" "<html>"))
        (fun _ => Some sample_table)
        (fun _ _ => Some (OSError "No space left on device"))
        (fun _ _ => None) [].

(** A machine without a speech driver: [pyttsx3.init()] raises. *)
Definition no_speech_env : environment :=
  mkEnv (Some (RuntimeError "eSpeak is not installed"))
        (fun _ _ => None) (fun _ => None)
        (fun _ _ => inr (mkResponse 200 "OK" "<html>"))
        (fun _ => Some sample_table)
        (fun _ _ => None) (fun _ _ => None) ["france"; "exit"].

(** A world in which the sample table is object 0. *)
Definition sample_world : world := mkWorld [] [sample_frame] 0.

(** The outcome is one the script itself can have: it did not leave the
    fragment of the libraries modelled here. *)
Definition in_model {A} (x : result A * world) : Prop :=
  fst x <> Raise OutsideModel.

(* ================================================================== *)
(** ** Vocabulary of the further properties *)
(* ================================================================== *)

(** Every character of the text is whitespace. *)
Fixpoint all_space (s : string) : bool :=
  match s with
  | EmptyString => true
  | String c rest => PyStr.isspace c && all_space rest
  end.

Definition first_char (s : string) : option ascii :=
  match s with
  | EmptyString => None
  | String c _ => Some c
  end.

Fixpoint last_char (s : string) : option ascii :=
  match s with
  | EmptyString => None
  | String c EmptyString => Some c
  | String _ rest => last_char rest
  end.

Definition not_space (c : option ascii) : Prop :=
  match c with
  | Some x => PyStr.isspace x = false
  | None => True
  end.

(** A text with no whitespace at either end, which [strip] leaves as
    it is. *)
Definition trimmed (s : string) : Prop :=
  not_space (first_char s) /\ not_space (last_char s) /\ PyStr.strip s = s.

(** The line is the sentinel of the loop, as line 95 tests it. *)
Definition is_sentinel (line : string) : bool :=
  String.eqb (PyStr.lower (PyStr.strip line)) "exit".

(** Output of the speech device. *)
Definition is_speech (e : event) : bool :=
  match e with
  | ESay _ | ESpoken => true
  | _ => false
  end.

(** A file export was called. *)
Definition is_export (e : event) : bool :=
  match e with
  | EToCsv _ | EToExcel _ => true
  | _ => false
  end.

(** Events of the network and the file system, as opposed to what is
    printed, prompted and said. *)
Definition is_device (e : event) : bool :=
  match e with
  | EGet _ _ | EToCsv _ | EToExcel _ => true
  | _ => false
  end.

(** A computation that adds no event selected by [p] to the output. *)
Definition adds_none {A} (p : event -> bool) (c : M A) : Prop :=
  forall w, filter p (console (snd (c w))) = filter p (console w).

(** A computation that leaves the script, if at all, with status 1. *)
Definition exits_with_1 {A} (c : M A) : Prop :=
  forall w code, fst (c w) = Raise (SystemExit code) -> code = 1%Z.

(** What lines 112-114 show for a result. *)
Definition shown (r : DataFrame) : list event :=
  [EPrint (nl +++ "--- Top Matching Results ---");
   EPrintFrame (mkDataFrame (columns r) (firstn 5 (data r)));
   EPrint (PyStr.repeat "-" 30)].

(** What lines 122-127 say for the first match [row] of [n] matches:
    the entity, then every other column with its value, then the count. *)
Definition narrated (others : list string) (row : list (option string))
  (n : nat) (search : string) : list string :=
  ["Found information for " +++ Pandas.str_of_cell (hd None row) +++ "."]
  ++ map (fun '(col, v) => col +++ ": " +++ Pandas.str_of_cell v)
       (combine others (tl row))
  ++ ["Search complete. " +++ PyStr.of_nat n
      +++ " total result(s) found for '" +++ search +++ "'."].

Definition no_match_message (search : string) : string :=
  "No matching record found for '" +++ search
  +++ "'. Try a shorter, more general name.".

Definition attribute_error : error :=
  AttributeError "'DataFrame' object has no attribute 'str'".

Definition eof_error : error := EOFError "EOF when reading a line".

(** The sample table with its first label repeated. *)
Definition twin_frame : DataFrame :=
  mkDataFrame ["Country"; "Country"]
    [[Some "France"; Some "200000"]; [Some "Germany"; Some "180000"]].

Definition twin_world : world := mkWorld [] [twin_frame] 0.

(** A page without the table. *)
Definition tableless_env : environment :=
  mkEnv None (fun _ _ => None) (fun _ => None)
        (fun _ _ => inr (mkResponse 200 "OK" "<html>"))
        (fun _ => None)
        (fun _ _ => None) (fun _ _ => None) ["exit"].

(** A table with a ragged row, and the same table made rectangular. *)
Definition padded_table : table_tag :=
  mkTable
    [[mkCell th " Country "; mkCell th "Active Personnel"];
     [mkCell th " France"; mkCell td "200000 "];
     [mkCell td "Germany"; mkCell td "180000"]].

(** A selection of events that picks none of what is printed, prompted,
    said or reported by the interpreter. *)
Definition device_only (p : event -> bool) : Prop :=
  forall e, is_device e = false -> p e = false.

(** The exports a run can hold: none, the CSV alone, or the CSV and
    then the spreadsheet. *)
Definition export_trace (l : list event) : Prop :=
  l = [] \/ l = [EToCsv csv_path]
  \/ l = [EToCsv csv_path; EToExcel xlsx_path].

(** A computation that adds such a trace of exports to the output. *)
Definition exports_once {A} (c : M A) : Prop :=
  forall w, exists l,
    filter is_export (console (snd (c w))) = filter is_export (console w) ++ l
    /\ export_trace l.

(* ================================================================== *)
(** ** Strings *)
(* ================================================================== *)

Lemma append_nil_r (s : string) : s +++ "" = s.
Proof. induction s; simpl; congruence. Qed.

Lemma append_assoc (a b c : string) : (a +++ b) +++ c = a +++ b +++ c.
Proof. induction a; simpl; congruence. Qed.

Lemma chars_append (a b : string) :
  list_ascii_of_string (a +++ b) = list_ascii_of_string a ++ list_ascii_of_string b.
Proof. induction a; simpl; congruence. Qed.

Lemma of_chars_app (a b : list ascii) :
  string_of_list_ascii (a ++ b) = string_of_list_ascii a +++ string_of_list_ascii b.
Proof. induction a; simpl; congruence. Qed.

Lemma prefix_iff (p s : string) :
  String.prefix p s = true <-> exists post, s = p +++ post.
Proof.
  revert s; induction p as [|c p IH]; intros s; simpl.
  - destruct s; split; eauto.
  - destruct s as [|d s]; [split; [discriminate | intros [? H]; discriminate]|].
    simpl; destruct (ascii_dec c d) as [->|Hne].
    + rewrite IH; split; intros [post H]; exists post; simpl; congruence.
    + split; [discriminate | intros [? H]; simpl in H; congruence].
Qed.

Lemma contains_nil (needle : string) :
  PyStr.contains needle "" = String.prefix needle "" || false.
Proof. reflexivity. Qed.

Lemma contains_cons (needle : string) (c : ascii) (hay : string) :
  PyStr.contains needle (String c hay)
  = String.prefix needle (String c hay) || PyStr.contains needle hay.
Proof. reflexivity. Qed.

Lemma contains_iff (needle hay : string) :
  PyStr.contains needle hay = true <-> substring_of needle hay.
Proof.
  unfold substring_of; induction hay as [|c hay IH].
  - rewrite contains_nil, orb_false_r, prefix_iff; split.
    + intros [post H]; exists "", post; exact H.
    + intros (pre & post & H); destruct pre; [eauto | discriminate].
  - rewrite contains_cons, orb_true_iff, IH, prefix_iff; split.
    + intros [[post H] | (pre & post & H)].
      * exists "", post; exact H.
      * exists (String c pre), post; simpl; congruence.
    + intros (pre & post & H); destruct pre as [|d pre]; simpl in H.
      * left; eauto.
      * right; exists pre, post; congruence.
Qed.

Lemma substring_refl (s : string) : substring_of s s.
Proof. exists "", ""; simpl; now rewrite append_nil_r. Qed.

Lemma substring_trans (a b c : string) :
  substring_of a b -> substring_of b c -> substring_of a c.
Proof.
  intros (p & q & ->) (p' & q' & ->).
  exists (p' +++ p), (q +++ q'); now rewrite !append_assoc.
Qed.

(** The test of a row is containment of the lowered query in the lowered
    value of its first cell; a missing value never passes. *)
Lemma entity_matches_iff (query : string) (row : list (option string)) :
  entity_matches query row = true
  <-> exists v, Pandas.cell_at row 0 = Some v
                /\ substring_of (PyStr.lower query) (PyStr.lower v).
Proof.
  unfold entity_matches; destruct (Pandas.cell_at row 0) as [v|].
  - rewrite contains_iff; split.
    + intros H; exists v; auto.
    + intros (v' & Hv & H); now injection Hv as ->.
  - split; [discriminate | intros (v & Hv & _); discriminate].
Qed.

(* ================================================================== *)
(** ** [re.escape] yields a pattern of literals *)
(* ================================================================== *)

(** The characters [re.escape] leaves alone have no meaning of their own
    in a pattern. *)
Lemma feed_normal_plain (c : ascii) :
  Re.is_special c = false ->
  Re.feed_normal c = Re.Compiled ([Re.TLit c], Re.MNormal).
Proof.
  destruct c as [[] [] [] [] [] [] [] []]; vm_compute;
    first [reflexivity | discriminate].
Qed.

(** A backslash in front of a special character makes it a literal. *)
Lemma feed_escape_special (c : ascii) :
  Re.is_special c = true ->
  Re.feed_escape c = Re.Compiled ([Re.TLit c], Re.MNormal).
Proof.
  destruct c as [[] [] [] [] [] [] [] []]; vm_compute;
    first [reflexivity | discriminate].
Qed.

Lemma lex_cons (m : Re.mode) (c : ascii) (rest : string) :
  Re.lex m (String c rest)
  = match Re.feed m c with
    | Re.Compiled (ts, m') =>
        match Re.lex m' rest with
        | Re.Compiled ts' => Re.Compiled (ts ++ ts')
        | Re.BadPattern => Re.BadPattern
        | Re.Unsupported => Re.Unsupported
        end
    | Re.BadPattern => Re.BadPattern
    | Re.Unsupported => Re.Unsupported
    end.
Proof. reflexivity. Qed.

Lemma lex_escape (q : string) :
  Re.lex Re.MNormal (Re.escape q)
  = Re.Compiled (map Re.TLit (list_ascii_of_string q)).
Proof.
  induction q as [|c q IH]; [reflexivity|].
  simpl Re.escape; destruct (Re.is_special c) eqn:Hc.
  - rewrite lex_cons.
    change (Re.feed Re.MNormal "\") with (@Re.Compiled (list Re.token * Re.mode) ([], Re.MEscape)).
    cbv iota beta; rewrite lex_cons.
    change (Re.feed Re.MEscape c) with (Re.feed_escape c).
    rewrite (feed_escape_special _ Hc), IH; reflexivity.
  - rewrite lex_cons.
    change (Re.feed Re.MNormal c) with (Re.feed_normal c).
    rewrite (feed_normal_plain _ Hc), IH; reflexivity.
Qed.

Lemma seq_of_acc (pieces : list Re.regex) (acc : Re.regex) :
  fold_left (fun a r => Re.Cat r a) pieces acc
  = fold_right (fun r a => Re.Cat r a) acc (rev pieces).
Proof.
  revert acc; induction pieces as [|r rs IH]; intros acc; simpl; [reflexivity|].
  rewrite IH, fold_right_app; reflexivity.
Qed.

Lemma parse_literals (chars : list ascii) (f : Re.frame) :
  Re.parse (map Re.TLit chars) (f, [])
  = Re.Compiled
      (Re.alt_of (Re.mkFrame (Re.branches f)
                    (rev (map Re.Lit chars) ++ Re.pieces f) false)).
Proof.
  revert f; induction chars as [|c chars IH]; intros f.
  - destruct f as [bs ps rp]; reflexivity.
  - simpl; rewrite IH; simpl.
    now rewrite <- app_assoc.
Qed.

Lemma literal_as_fold (chars : list ascii) :
  literal chars = fold_right (fun r a => Re.Cat r a) Re.Empty (map Re.Lit chars).
Proof. induction chars; simpl; congruence. Qed.

(** Compiling an escaped text gives the pattern of its characters. *)
Lemma compile_escape (q : string) :
  Re.compile (Re.escape q) = Re.Compiled (literal (list_ascii_of_string q)).
Proof.
  unfold Re.compile; rewrite lex_escape, parse_literals.
  unfold Re.alt_of, Re.seq_of; simpl.
  rewrite app_nil_r, seq_of_acc, rev_involutive, literal_as_fold; reflexivity.
Qed.

(** A pattern of literals matches exactly where its characters stand. *)
Lemma matches_literal (chars : list ascii) :
  forall pos text k,
    Re.matches (literal chars) pos text k = true
    <-> exists rest, text = chars ++ rest /\ k (pos + List.length chars) rest = true.
Proof.
  induction chars as [|c chars IH]; intros pos text k; simpl.
  - rewrite Nat.add_0_r; split; [eauto | intros (rest & -> & H); exact H].
  - destruct text as [|x text].
    + split; [discriminate | intros (rest & H & _); discriminate].
    + rewrite andb_true_iff, IH, Ascii.eqb_eq; split.
      * intros (-> & rest & -> & H); exists rest; split; [reflexivity|].
        now rewrite Nat.add_succ_r.
      * intros (rest & H & Hk); injection H as -> ->; split; [reflexivity|].
        exists rest; split; [reflexivity|]. now rewrite Nat.add_succ_r in Hk.
Qed.

Lemma search_from_literal (chars : list ascii) :
  forall pos text,
    Re.search_from (literal chars) pos text = true
    <-> exists pre post, text = pre ++ chars ++ post.
Proof.
  intros pos text; revert pos; induction text as [|x text IH]; intros pos.
  - simpl Re.search_from; rewrite orb_false_r, matches_literal; split.
    + intros (rest & H & _); exists [], rest; exact H.
    + intros (pre & post & H); destruct pre; simpl in H; [eauto | discriminate].
  - simpl Re.search_from; rewrite orb_true_iff, matches_literal, IH; split.
    + intros [(rest & H & _) | (pre & post & H)].
      * exists [], rest; exact H.
      * exists (x :: pre), post; simpl; congruence.
    + intros (pre & post & H); destruct pre as [|y pre]; simpl in H.
      * left; eauto.
      * right; exists pre, post; congruence.
Qed.

Lemma search_literal (q s : string) :
  Re.search (literal (list_ascii_of_string q)) s = true <-> substring_of q s.
Proof.
  unfold Re.search, substring_of; rewrite search_from_literal; split.
  - intros (pre & post & H).
    exists (string_of_list_ascii pre), (string_of_list_ascii post).
    rewrite <- (string_of_list_ascii_of_string s), H, !of_chars_app.
    now rewrite string_of_list_ascii_of_string.
  - intros (pre & post & ->).
    exists (list_ascii_of_string pre), (list_ascii_of_string post).
    now rewrite !chars_append.
Qed.

Lemma search_literal_contains (q s : string) :
  Re.search (literal (list_ascii_of_string q)) s = PyStr.contains q s.
Proof.
  apply eq_true_iff_eq; rewrite search_literal, contains_iff; reflexivity.
Qed.

(* ================================================================== *)
(** ** Running the pieces of the script *)
(* ================================================================== *)

Lemma bind_ok {A B} (c : M A) (k : A -> M B) (w w' : world) (a : A) :
  c w = (Ok a, w') -> bind c k w = k a w'.
Proof. unfold bind; now intros ->. Qed.

Lemma bind_raise {A B} (c : M A) (k : A -> M B) (w w' : world) (e : exn) :
  c w = (Raise e, w') -> bind c k w = (Raise e, w').
Proof. unfold bind; now intros ->. Qed.

Lemma emit_run (e : event) (w : world) : emit e w = (Ok tt, log [e] w).
Proof. reflexivity. Qed.

Lemma print_run (line : string) (w : world) :
  print line w = (Ok tt, log [EPrint line] w).
Proof. reflexivity. Qed.

Lemma log_log (es es' : list event) (w : world) :
  log es' (log es w) = log (es ++ es') w.
Proof. unfold log; simpl; now rewrite app_assoc. Qed.

(** [speak] always returns: whatever [say] or [runAndWait] raise is
    caught inside it. *)
Lemma speak_run (env : environment) (text : string) (w : world) :
  speak env text w = (Ok tt, after_speak env text w).
Proof.
  unfold speak, after_speak, spoken, bind, print, emit, next_speak_call,
    try_except, engine_say, engine_runAndWait, bind, emit, raise, ret.
  simpl.
  destruct (tts_say env (speak_calls w) text); simpl.
  - reflexivity.
  - destruct (tts_runAndWait env (speak_calls w)); simpl;
      rewrite <- !app_assoc; reflexivity.
Qed.

Lemma for_each_speak (env : environment) (texts : list string) (w : world) :
  for_each texts (speak env) w = (Ok tt, after_speaking env texts w).
Proof.
  revert w; induction texts as [|t texts IH]; intros w; [reflexivity|].
  simpl for_each; rewrite (bind_ok _ _ _ _ _ (speak_run env t w)).
  apply IH.
Qed.

Lemma frames_after_speak env text w : frames (after_speak env text w) = frames w.
Proof. reflexivity. Qed.

Lemma frames_after_speaking env texts w :
  frames (after_speaking env texts w) = frames w.
Proof.
  revert w; induction texts as [|t texts IH]; intros w; [reflexivity|].
  simpl; now rewrite IH.
Qed.

Lemma frames_log es w : frames (log es w) = frames w.
Proof. reflexivity. Qed.

Lemma read_frame_run (ref : nat) (d : DataFrame) (w : world) :
  nth_error (frames w) ref = Some d -> read_frame ref w = (Ok d, w).
Proof. unfold read_frame; now intros ->. Qed.

Lemma nth_error_fresh {A} (xs : list A) (x : A) :
  nth_error (xs ++ [x]) (List.length xs) = Some x.
Proof. rewrite nth_error_app2, Nat.sub_diag; [reflexivity | lia]. Qed.

Lemma nth_error_kept {A} (xs ys : list A) (i : nat) (x : A) :
  nth_error xs i = Some x -> nth_error (xs ++ ys) i = Some x.
Proof.
  intros H; rewrite nth_error_app1; [exact H|].
  apply nth_error_Some; congruence.
Qed.

(* ================================================================== *)
(** ** Row extraction *)
(* ================================================================== *)

Section Extraction.

Variable headers : list string.

Lemma extract_loop_acc (trs : list tr) (rows : list (list string)) :
  fold_left
    (fun rows row =>
       let cols := find_all_td_th row in
       let cols := map (fun col => PyStr.strip (cell_text col)) cols in
       if List.length headers <=? List.length cols
       then rows ++ [firstn (List.length headers) cols]
       else rows)
    trs rows
  = rows ++ map (firstn (List.length headers))
              (filter (fun cols => List.length headers <=? List.length cols)
                 (map stripped_cells trs)).
Proof.
  revert rows; induction trs as [|row trs IH]; intros rows; simpl.
  - now rewrite app_nil_r.
  - rewrite IH; unfold stripped_cells.
    destruct (List.length headers <=? _); simpl; [|reflexivity].
    now rewrite <- app_assoc.
Qed.

Lemma extract_rows_eq (table : table_tag) :
  extract_rows headers table
  = map (firstn (List.length headers))
      (filter (fun cols => List.length headers <=? List.length cols)
         (map stripped_cells (tl (find_all_tr table)))).
Proof. unfold extract_rows; now rewrite extract_loop_acc. Qed.

Lemma extract_rows_width (table : table_tag) :
  Forall (fun r => List.length r = List.length headers)
    (extract_rows headers table).
Proof.
  rewrite extract_rows_eq, Forall_map, Forall_forall.
  intros cols Hin; apply filter_In in Hin as [_ Hk].
  apply Nat.leb_le in Hk.
  rewrite length_firstn; lia.
Qed.

End Extraction.

Lemma width_uniform (rows : list (list string)) (n : nat) :
  rows <> [] -> Forall (fun r => List.length r = n) rows -> Pandas.width rows = n.
Proof.
  intros Hne Hall; induction Hall as [|r rows Hr Hall IH]; [congruence|].
  simpl; destruct rows as [|r' rows'].
  - simpl; lia.
  - rewrite IH by discriminate; lia.
Qed.

Lemma pad_exact (row : list string) : Pandas.pad (List.length row) row = map Some row.
Proof. unfold Pandas.pad; rewrite Nat.sub_diag; simpl; apply app_nil_r. Qed.

(** Rows that all have the width of the header make a DataFrame with
    no missing cell. *)
Lemma DataFrame_of_uniform_rows (rows : list (list string)) (cols : list string) :
  Forall (fun r => List.length r = List.length cols) rows ->
  Pandas.DataFrame_of_rows rows cols = Ok (mkDataFrame cols (map (map Some) rows)).
Proof.
  intros Hall; destruct rows as [|r rows]; [reflexivity|].
  unfold Pandas.DataFrame_of_rows.
  rewrite (width_uniform (r :: rows) (List.length cols)) by (discriminate || assumption).
  rewrite Nat.eqb_refl; do 2 f_equal.
  apply map_ext_in; intros row Hin.
  rewrite Forall_forall in Hall; rewrite <- (Hall _ Hin); apply pad_exact.
Qed.

(* ================================================================== *)
(** ** The filter of line 108 *)
(* ================================================================== *)

Lemma positions_from_absent (i : nat) (label : string) (labels : list string) :
  ~ In label labels -> Pandas.positions_from i label labels = [].
Proof.
  revert i; induction labels as [|l labels IH]; intros i Hnin; [reflexivity|].
  simpl; destruct (String.eqb_spec l label) as [->|_].
  - exfalso; apply Hnin; now left.
  - apply IH; intros Hin; apply Hnin; now right.
Qed.

Lemma positions_first (label : string) (others : list string) :
  ~ In label others -> Pandas.positions label (label :: others) = [0].
Proof.
  intros Hnin; unfold Pandas.positions; simpl; rewrite String.eqb_refl.
  now rewrite positions_from_absent.
Qed.

Lemma select_map {A} (p : A -> bool) (rows : list A) :
  Pandas.select (map p rows) rows = filter p rows.
Proof.
  induction rows as [|r rows IH]; [reflexivity|].
  simpl; rewrite IH; reflexivity.
Qed.

(** Searching an escaped pattern is plain containment of the text that
    was escaped. *)
Lemma str_contains_escape (values : list (option string)) (q : string) :
  Pandas.str_contains values (Re.escape q)
  = Ok (map (fun v => match v with
                      | Some s => PyStr.contains q s
                      | None => false
                      end) values).
Proof.
  unfold Pandas.str_contains; rewrite compile_escape; f_equal.
  apply map_ext; intros [s|]; [apply search_literal_contains | reflexivity].
Qed.

Lemma filter_frame_first_column (d : DataFrame) (name_col : string)
  (others : list string) (search : string) :
  columns d = name_col :: others ->
  ~ In name_col others ->
  filter_frame d name_col (Re.escape (PyStr.lower search))
  = Ok (mkDataFrame (columns d) (filter (entity_matches search) (data d))).
Proof.
  intros Hcols Hnd; unfold filter_frame, Pandas.getitem.
  rewrite Hcols; rewrite (positions_first _ _ Hnd); simpl Pandas.str.
  cbv iota beta; rewrite str_contains_escape; unfold Pandas.boolean_index.
  rewrite <- Hcols; do 2 f_equal.
  unfold Pandas.str_lower; rewrite !map_map.
  rewrite <- select_map; f_equal.
  apply map_ext; intros row; unfold entity_matches.
  destruct (Pandas.cell_at row 0); reflexivity.
Qed.

(* ================================================================== *)
(** ** The store of DataFrame objects only grows *)
(* ================================================================== *)

Lemma extends_refl (w : world) : extends w w.
Proof. exists []; now rewrite app_nil_r. Qed.

Lemma extends_trans (w1 w2 w3 : world) :
  extends w1 w2 -> extends w2 w3 -> extends w1 w3.
Proof.
  intros [f1 H1] [f2 H2]; exists (f1 ++ f2).
  now rewrite H2, H1, app_assoc.
Qed.

Lemma extends_keeps (w w' : world) (ref : nat) (d : DataFrame) :
  extends w w' -> nth_error (frames w) ref = Some d ->
  nth_error (frames w') ref = Some d.
Proof. intros [fresh ->]; apply nth_error_kept. Qed.

Lemma append_only_ret {A} (a : A) : append_only (ret a).
Proof. intros w; apply extends_refl. Qed.

Lemma append_only_raise {A} (e : exn) : append_only (@raise A e).
Proof. intros w; apply extends_refl. Qed.

Lemma append_only_lift {A} (r : result A) : append_only (lift r).
Proof. intros w; apply extends_refl. Qed.

Lemma append_only_emit (e : event) : append_only (emit e).
Proof. intros w; exists []; simpl; now rewrite app_nil_r. Qed.

Lemma append_only_read (ref : nat) : append_only (read_frame ref).
Proof.
  intros w; unfold read_frame; destruct (nth_error _ _); apply extends_refl.
Qed.

Lemma append_only_alloc (d : DataFrame) : append_only (alloc_frame d).
Proof. intros w; exists [d]; reflexivity. Qed.

Lemma append_only_speak (env : environment) (text : string) :
  append_only (speak env text).
Proof. intros w; rewrite speak_run; exists []; simpl; now rewrite app_nil_r. Qed.

Lemma append_only_bind {A B} (c : M A) (k : A -> M B) :
  append_only c -> (forall a, append_only (k a)) -> append_only (bind c k).
Proof.
  intros Hc Hk w; unfold bind; specialize (Hc w).
  destruct (c w) as [[a|e] w1]; simpl in Hc; [|exact Hc].
  eapply extends_trans; [exact Hc | apply Hk].
Qed.

Lemma append_only_for_each {A} (items : list A) (body : A -> M unit) :
  (forall x, append_only (body x)) -> append_only (for_each items body).
Proof.
  intros Hb; induction items as [|x items IH]; simpl.
  - apply append_only_ret.
  - apply append_only_bind; [apply Hb | intros _; exact IH].
Qed.

Lemma append_only_first_item {A} (xs : list A) : append_only (first_item xs).
Proof. destruct xs; [apply append_only_raise | apply append_only_ret]. Qed.

Lemma append_only_print (line : string) : append_only (print line).
Proof. apply append_only_emit. Qed.

Create HintDb frame_db.

#[local] Hint Resolve append_only_ret append_only_raise append_only_lift
  append_only_emit append_only_read append_only_alloc append_only_speak
  append_only_first_item append_only_print : frame_db.

Ltac frame_steps :=
  repeat first
    [ solve [auto with frame_db]
    | apply append_only_for_each; intros ?
    | apply append_only_bind; [| intros ?] ].

Lemma append_only_report env df result name_col search :
  append_only (report env df result name_col search).
Proof.
  unfold report; apply append_only_bind; [auto with frame_db|intros r].
  destruct (negb (Pandas.empty r)); frame_steps.
Qed.

#[local] Hint Resolve append_only_report : frame_db.

Lemma append_only_iteration env df name_col line :
  append_only (iteration env df name_col line).
Proof.
  unfold iteration.
  destruct (String.eqb _ "exit"); [frame_steps|].
  destruct (String.eqb _ ""); [frame_steps|].
  frame_steps.
Qed.

Lemma append_only_search_loop env df name_col lines :
  append_only (search_loop env df name_col lines).
Proof.
  induction lines as [|line rest IH]; simpl search_loop.
  - frame_steps.
  - apply append_only_bind; [auto with frame_db|intros _].
    apply append_only_bind; [apply append_only_iteration|intros [|]].
    + apply append_only_ret.
    + exact IH.
Qed.

(* ================================================================== *)
(** ** One pass of the search loop *)
(* ================================================================== *)

Ltac run_step :=
  first
    [ erewrite bind_ok by apply print_run
    | erewrite bind_ok by apply emit_run
    | erewrite bind_ok by apply speak_run
    | erewrite bind_ok by apply for_each_speak
    | erewrite bind_ok by (apply read_frame_run; simpl; eassumption) ].

Lemma lower_strip_empty (line : string) :
  PyStr.strip line = "" -> PyStr.lower (PyStr.strip line) <> "exit".
Proof. intros ->; discriminate. Qed.

(** The sentinel branch, lines 95-97. *)
Lemma iteration_exit env df name_col line w :
  PyStr.lower (PyStr.strip line) = "exit" ->
  iteration env df name_col line w
  = (Ok Break, after_speak env "Session terminated. Goodbye!" w).
Proof.
  intros H; unfold iteration; rewrite H, String.eqb_refl.
  run_step; reflexivity.
Qed.

(** The empty-input branch, lines 99-101. *)
Lemma iteration_empty env df name_col line w :
  PyStr.strip line = "" ->
  iteration env df name_col line w
  = (Ok Continue, after_speak env "Please enter a country name to search." w).
Proof.
  intros H; unfold iteration; rewrite H.
  change (String.eqb (PyStr.lower "") "exit") with false.
  rewrite String.eqb_refl.
  run_step; reflexivity.
Qed.

(** Outside the sentinel branch a pass never ends the loop. *)
Lemma iteration_not_break env df name_col line w :
  PyStr.lower (PyStr.strip line) <> "exit" ->
  fst (iteration env df name_col line w) <> Ok Break.
Proof.
  intros H; unfold iteration.
  destruct (String.eqb_spec (PyStr.lower (PyStr.strip line)) "exit") as [E|_];
    [contradiction|].
  destruct (String.eqb (PyStr.strip line) "").
  - run_step; discriminate.
  - unfold bind.
    destruct (read_frame df w) as [[d|e] w1]; [|discriminate].
    destruct (lift _ w1) as [[r|e] w2]; [|discriminate].
    destruct (alloc_frame r w2) as [[res|e] w3]; [|discriminate].
    destruct (report env df res name_col (PyStr.strip line) w3) as [[u|e] w4];
      discriminate.
Qed.

(** What is shown and said for a result never fails. *)
Lemma report_ok env df result name_col search w d r :
  nth_error (frames w) df = Some d ->
  nth_error (frames w) result = Some r ->
  exists w', report env df result name_col search w = (Ok tt, w')
             /\ frames w' = frames w.
Proof.
  intros Hd Hr; unfold report.
  run_step.
  destruct (Pandas.empty r) eqn:He;
    [change (negb true) with false | change (negb false) with true]; cbv iota.
  - rewrite speak_run; eexists; split; reflexivity.
  - destruct (data r) as [|row rows] eqn:Hdata.
    + unfold Pandas.empty in He; rewrite Hdata in He; discriminate.
    + do 3 run_step.
      erewrite bind_ok by reflexivity.
      do 3 run_step.
      rewrite speak_run; eexists; split; [reflexivity|].
      simpl; now rewrite frames_after_speaking.
Qed.

(* ================================================================== *)
(** ** Fetching, locating, storing, exporting *)
(* ================================================================== *)

Lemma requests_get_ok env res w :
  http_get env url request_headers = inr res ->
  requests_get env url request_headers w
  = (Ok res, log [EGet url request_headers] w).
Proof.
  intros H; unfold requests_get; run_step; rewrite H; reflexivity.
Qed.

Lemma requests_get_raise env e w :
  http_get env url request_headers = inl e ->
  requests_get env url request_headers w
  = (Raise (Exc e), log [EGet url request_headers] w).
Proof.
  intros H; unfold requests_get; run_step; rewrite H; reflexivity.
Qed.

Lemma raise_for_status_ok res w :
  passes_status res -> raise_for_status res w = (Ok tt, w).
Proof.
  intros H; unfold raise_for_status, passes_status in *.
  destruct (400 <=? status_code res)%Z eqn:E1;
    destruct (status_code res <? 500)%Z eqn:E2;
    destruct (500 <=? status_code res)%Z eqn:E3;
    destruct (status_code res <? 600)%Z eqn:E4; simpl; try reflexivity; lia.
Qed.

Lemma raise_for_status_error res w :
  (400 <= status_code res < 600)%Z ->
  raise_for_status res w = (Raise (Exc (HTTPError (http_error_message res))), w).
Proof.
  intros H; unfold raise_for_status, http_error_message.
  destruct (400 <=? status_code res)%Z eqn:E1;
    destruct (status_code res <? 500)%Z eqn:E2;
    destruct (500 <=? status_code res)%Z eqn:E3;
    destruct (status_code res <? 600)%Z eqn:E4; simpl; try reflexivity; lia.
Qed.

Lemma fetch_ok env res w :
  http_get env url request_headers = inr res ->
  passes_status res ->
  fetch env w = (Ok res, log [EGet url request_headers] w).
Proof.
  intros Hget Hst; unfold fetch, try_except.
  fold request_headers.
  rewrite (bind_ok _ _ _ _ _ (requests_get_ok env res w Hget)).
  rewrite (bind_ok _ _ _ _ _ (raise_for_status_ok res _ Hst)).
  reflexivity.
Qed.

Lemma fetch_failure env details w :
  fetch_fails env details ->
  fetch env w
  = (Raise (SystemExit 1),
     after_speak env
       ("FATAL ERROR: Could not connect to Wikipedia. Details: " +++ details)
       (log [EGet url request_headers] w)).
Proof.
  intros [(e & Hget & Hreq & ->) | (res & Hget & Hst & ->)];
    unfold fetch, try_except; fold request_headers.
  - rewrite (bind_raise _ _ _ _ _ (requests_get_raise env e w Hget)), Hreq.
    run_step; reflexivity.
  - rewrite (bind_ok _ _ _ _ _ (requests_get_ok env res w Hget)).
    rewrite (bind_raise _ _ _ _ _ (raise_for_status_error res _ Hst)).
    cbv iota beta; simpl is_RequestException; cbv iota.
    run_step; reflexivity.
Qed.

Lemma for_each_print {A} (items : list A) (body : A -> M unit)
  (f : A -> string) (w : world) :
  (forall x w', body x w' = print (f x) w') ->
  for_each items body w
  = (Ok tt, log (map (fun x => EPrint (f x)) items) w).
Proof.
  intros Hbody; revert w; induction items as [|x items IH]; intros w;
    simpl for_each.
  - unfold ret, log; simpl; rewrite app_nil_r; now destruct w.
  - erewrite bind_ok by (rewrite Hbody; apply print_run).
    rewrite IH, log_log; reflexivity.
Qed.

Lemma build_frame_run rows headers d w :
  Pandas.DataFrame_of_rows rows headers = Ok d ->
  build_frame rows headers w
  = (Ok (List.length (frames w)),
     mkWorld (console w ++ column_listing (columns d))
             (frames w ++ [d]) (speak_calls w)).
Proof.
  intros Hd; unfold build_frame; rewrite Hd.
  erewrite bind_ok by reflexivity.
  erewrite bind_ok by reflexivity.
  do 2 run_step.
  erewrite bind_ok by (apply read_frame_run; simpl; apply nth_error_fresh).
  erewrite bind_ok.
  2:{ apply for_each_print
        with (f := fun '(i, col) =>
                     "  " +++ PyStr.of_nat (i + 1) +++ ". '" +++ col +++ "'").
      intros [i col] w'; reflexivity. }
  run_step; unfold ret, log, column_listing; simpl.
  do 2 f_equal; rewrite <- !app_assoc; simpl; do 4 f_equal.
  apply map_ext; intros [i col]; reflexivity.
Qed.

Lemma df_to_csv_run env df d path w :
  nth_error (frames w) df = Some d ->
  df_to_csv env df path w
  = (match to_csv env d path with
     | None => Ok tt
     | Some e => Raise (Exc e)
     end, log [EToCsv path] w).
Proof.
  intros Hd; unfold df_to_csv; do 2 run_step.
  destruct (to_csv env d path); reflexivity.
Qed.

Lemma df_to_excel_run env df d path w :
  nth_error (frames w) df = Some d ->
  df_to_excel env df path w
  = (match to_excel env d path with
     | None => Ok tt
     | Some e => Raise (Exc e)
     end, log [EToExcel path] w).
Proof.
  intros Hd; unfold df_to_excel; do 2 run_step.
  destruct (to_excel env d path); reflexivity.
Qed.

(** Lines 79-84, case by case. *)
Lemma export_run env df d w :
  nth_error (frames w) df = Some d ->
  export env df w
  = (Ok tt,
     match to_csv env d csv_path with
     | Some e => after_speak env (warning e) (log [EToCsv csv_path] w)
     | None =>
         match to_excel env d xlsx_path with
         | Some e =>
             after_speak env (warning e)
               (log [EToCsv csv_path; EToExcel xlsx_path] w)
         | None =>
             after_speak env
               "Data successfully structured and saved as CSV and Excel files."
               (log [EToCsv csv_path; EToExcel xlsx_path] w)
         end
     end).
Proof.
  intros Hd; unfold export, try_except, bind.
  fold csv_path xlsx_path.
  rewrite (df_to_csv_run env df d csv_path w Hd).
  destruct (to_csv env d csv_path) as [e|].
  - simpl is_Exception; cbv iota; rewrite speak_run; reflexivity.
  - cbv iota beta.
    rewrite (df_to_excel_run env df d xlsx_path (log [EToCsv csv_path] w) Hd).
    destruct (to_excel env d xlsx_path) as [e|].
    + simpl is_Exception; cbv iota; rewrite speak_run, log_log; reflexivity.
    + rewrite speak_run, log_log; reflexivity.
Qed.

Lemma export_ok env df d w :
  nth_error (frames w) df = Some d ->
  exists w', export env df w = (Ok tt, w') /\ frames w' = frames w.
Proof.
  intros Hd; rewrite (export_run env df d w Hd); eexists; split; [reflexivity|].
  destruct (to_csv env d csv_path); [reflexivity|].
  destruct (to_excel env d xlsx_path); reflexivity.
Qed.

Lemma filter_spoken (p : event -> bool) env n text :
  (forall s, p (EPrint s) = false) -> (forall s, p (ESay s) = false) ->
  p ESpoken = false -> filter p (spoken env n text) = [].
Proof.
  intros H1 H2 H3; unfold spoken; simpl; rewrite H1.
  destruct (tts_say env n text); [reflexivity|]; simpl; rewrite H2.
  destruct (tts_runAndWait env n); [reflexivity|]; simpl; now rewrite H3.
Qed.

(* ================================================================== *)
(** ** The script from the top *)
(* ================================================================== *)

Lemma script_start env (w : world) :
  tts_init env = None ->
  script env w
  = bind (fetch env) (process env)
      (after_speak env "Starting data fetch from Wikipedia..." w).
Proof.
  intros Hinit; unfold script, init_engine; rewrite Hinit.
  erewrite bind_ok by reflexivity.
  run_step; reflexivity.
Qed.

Lemma script_fetched env res :
  tts_init env = None ->
  http_get env url request_headers = inr res ->
  passes_status res ->
  script env initial_world = process env res (fetched env).
Proof.
  intros Hinit Hget Hst; rewrite (script_start env _ Hinit).
  erewrite bind_ok by (apply fetch_ok; eassumption).
  reflexivity.
Qed.

Lemma locate_table_found env res table w :
  find_wikitable env (text res) = Some table ->
  locate_table env res w = (Ok table, w).
Proof. intros H; unfold locate_table; now rewrite H. Qed.

Lemma read_headers_rowless env table w :
  find_all_tr table = [] ->
  read_headers env table w
  = (Raise (SystemExit 1),
     after_speak env "ERROR: Table appears empty or headers could not be read." w).
Proof.
  intros H; unfold read_headers, try_except; rewrite H.
  erewrite bind_raise by reflexivity.
  simpl is_IndexError; cbv iota.
  run_step; reflexivity.
Qed.

Lemma read_headers_row env table row0 rest w :
  find_all_tr table = row0 :: rest ->
  read_headers env table w
  = (Ok (map (fun c => PyStr.strip (cell_text c)) (find_all_th row0)), w).
Proof.
  intros H; unfold read_headers, try_except; rewrite H.
  erewrite bind_ok by reflexivity.
  reflexivity.
Qed.

(** With no column label, line 89 raises. *)
Lemma interactive_search_no_column env df d w :
  nth_error (frames w) df = Some d ->
  columns d = [] ->
  interactive_search env df w
  = (Raise (Exc (IndexError "index 0 is out of bounds for axis 0 with size 0")), w).
Proof.
  intros Hd Hc; unfold interactive_search, first_column.
  erewrite bind_raise; [reflexivity|].
  run_step; rewrite Hc; reflexivity.
Qed.

Lemma search_loop_cons env df name_col line rest w :
  search_loop env df name_col (line :: rest) w
  = match iteration env df name_col line (log [EPrompt prompt] w) with
    | (Ok Break, w') => (Ok tt, w')
    | (Ok Continue, w') => search_loop env df name_col rest w'
    | (Raise e, w') => (Raise e, w')
    end.
Proof.
  simpl search_loop; run_step; unfold bind.
  destruct (iteration env df name_col line (log [EPrompt prompt] w))
    as [[[|]|e] w']; reflexivity.
Qed.

(** A query that line 108 can filter makes the pass allocate the
    filtered table as a new object. *)
Lemma iteration_filtered env df d name_col line r w :
  nth_error (frames w) df = Some d ->
  PyStr.strip line <> "" ->
  PyStr.lower (PyStr.strip line) <> "exit" ->
  filter_frame d name_col (Re.escape (PyStr.lower (PyStr.strip line))) = Ok r ->
  exists w',
    iteration env df name_col line w = (Ok Continue, w')
    /\ frames w' = frames w ++ [r].
Proof.
  intros Hd Hne Hnx Hf; unfold iteration.
  destruct (String.eqb_spec (PyStr.lower (PyStr.strip line)) "exit") as [E|_];
    [contradiction|].
  destruct (String.eqb_spec (PyStr.strip line) "") as [E|_]; [contradiction|].
  run_step; rewrite Hf.
  erewrite bind_ok by reflexivity.
  erewrite bind_ok by reflexivity.
  set (w1 := mkWorld (console w) (frames w ++ [r]) (speak_calls w)).
  destruct (report_ok env df (List.length (frames w)) name_col (PyStr.strip line)
              w1 d r) as (w2 & Hrep & Hfr).
  - simpl; now apply nth_error_kept.
  - simpl; apply nth_error_fresh.
  - rewrite (bind_ok _ _ _ _ _ Hrep); eexists; split; [reflexivity|exact Hfr].
Qed.

Lemma console_fetched env :
  console (fetched env)
  = spoken env 0 "Starting data fetch from Wikipedia..."
    ++ [EGet url request_headers].
Proof. reflexivity. Qed.

(** When [pyttsx3.init()] raises, nothing of the script runs. *)
Lemma init_failure_unwinds env e :
  tts_init env = Some e -> run env = Some (1%Z, [ETraceback e]).
Proof.
  intros H; unfold run, script, init_engine; rewrite H.
  erewrite bind_raise by reflexivity; reflexivity.
Qed.

(** A table with unique column names has its first name only once. *)
Lemma first_name_unique (name_col : string) (others : list string) :
  NoDup (name_col :: others) -> ~ In name_col others.
Proof. now inversion 1. Qed.

(** The sample table searched for "franc", "xyz" and "exit": one match,
    no match, and the end of the loop with status 0, the fourth line
    unread; the store then holds the table and the two results. *)
Example sample_session :
  fst (search_loop (sample_env 200 sample_table []) 0 "Country"
         ["franc"; "xyz"; "exit"; "germany"] sample_world) = Ok tt
  /\ frames (snd (search_loop (sample_env 200 sample_table []) 0 "Country"
                    ["franc"; "xyz"; "exit"; "germany"] sample_world))
     = [sample_frame;
        mkDataFrame ["Country"; "Active Personnel"] [[Some "France"; Some "200000"]];
        mkDataFrame ["Country"; "Active Personnel"] []]
  /\ option_map fst (run (sample_env 200 sample_table ["franc"; "xyz"; "exit"]))
     = Some 0%Z.
Proof. repeat split. Qed.

(** A table with a short row and a long row: the short row is left out
    and the long row is cut to the width of the header. *)
Example sample_extraction :
  extract_rows ["Country"; "Active Personnel"]
    (mkTable [[mkCell th "Country"; mkCell th "Active Personnel"];
              [mkCell th " France "; mkCell td "200000"; mkCell td "note"];
              [mkCell td "Germany"];
              [mkCell td "Italy"; mkCell td " 160000"]])
  = [["France"; "200000"]; ["Italy"; "160000"]].
Proof. reflexivity. Qed.

(* ================================================================== *)
(** ** Every run of the script ends with an exit status *)
(* ================================================================== *)

Lemma filter_frame_in_model (d : DataFrame) (name_col q : string) :
  filter_frame d name_col (Re.escape q) <> Raise OutsideModel.
Proof.
  unfold filter_frame, Pandas.getitem.
  destruct (Pandas.positions name_col (columns d)) as [|i [|j ps]];
    simpl; try discriminate.
  rewrite str_contains_escape; discriminate.
Qed.

Lemma iteration_in_model env df d name_col line w :
  nth_error (frames w) df = Some d ->
  in_model (iteration env df name_col line w).
Proof.
  intros Hd; unfold in_model.
  destruct (string_dec (PyStr.lower (PyStr.strip line)) "exit") as [E|Hnx].
  - rewrite iteration_exit by exact E; discriminate.
  - destruct (string_dec (PyStr.strip line) "") as [E|Hne].
    + rewrite iteration_empty by exact E; discriminate.
    + destruct (filter_frame d name_col
                  (Re.escape (PyStr.lower (PyStr.strip line)))) as [r|e] eqn:Hf.
      * destruct (iteration_filtered env df d name_col line r w Hd Hne Hnx Hf)
          as (w' & -> & _); discriminate.
      * unfold iteration.
        destruct (String.eqb_spec (PyStr.lower (PyStr.strip line)) "exit");
          [contradiction|].
        destruct (String.eqb_spec (PyStr.strip line) ""); [contradiction|].
        run_step; rewrite Hf.
        erewrite bind_raise by reflexivity; simpl.
        intros Heq; injection Heq as ->.
        exact (filter_frame_in_model _ _ _ Hf).
Qed.

Lemma search_loop_in_model env df d name_col lines :
  forall w,
    nth_error (frames w) df = Some d ->
    in_model (search_loop env df name_col lines w).
Proof.
  induction lines as [|line rest IH]; intros w Hd.
  - unfold in_model; simpl search_loop; run_step; discriminate.
  - rewrite search_loop_cons.
    pose proof (iteration_in_model env df d name_col line
                  (log [EPrompt prompt] w) Hd) as Hin.
    pose proof (append_only_iteration env df name_col line
                  (log [EPrompt prompt] w)) as Hext.
    destruct (iteration env df name_col line (log [EPrompt prompt] w))
      as [[[|]|e] w'].
    + discriminate.
    + apply IH; eapply extends_keeps; [exact Hext | exact Hd].
    + unfold in_model in *; simpl in *; intros Heq; apply Hin.
      now injection Heq as ->.
Qed.

Lemma interactive_search_in_model env df d w :
  nth_error (frames w) df = Some d ->
  in_model (interactive_search env df w).
Proof.
  intros Hd; unfold interactive_search, first_column.
  destruct (columns d) as [|c cs] eqn:Hc.
  - erewrite bind_raise by (run_step; rewrite Hc; reflexivity).
    unfold in_model; simpl; discriminate.
  - erewrite bind_ok by (run_step; rewrite Hc; reflexivity).
    run_step.
    eapply search_loop_in_model; exact Hd.
Qed.

Lemma fetch_in_model env w : in_model (fetch env w).
Proof.
  unfold in_model.
  destruct (http_get env url request_headers) as [e|res] eqn:Hget.
  - destruct (is_RequestException e) eqn:Hreq.
    + rewrite (fetch_failure env (str_of_error e)) by (left; eauto).
      discriminate.
    + unfold fetch, try_except; fold request_headers.
      rewrite (bind_raise _ _ _ _ _ (requests_get_raise env e w Hget)), Hreq.
      discriminate.
  - destruct (Z_lt_dec (status_code res) 400) as [Hlo|Hlo].
    + rewrite (fetch_ok env res w Hget) by (left; exact Hlo); discriminate.
    + destruct (Z_le_dec 600 (status_code res)) as [Hhi|Hhi].
      * rewrite (fetch_ok env res w Hget) by (right; exact Hhi); discriminate.
      * rewrite (fetch_failure env (http_error_message res))
          by (right; exists res; repeat split; [exact Hget | lia | lia]).
        discriminate.
Qed.

Lemma process_in_model env res w : in_model (process env res w).
Proof.
  unfold process, locate_table.
  destruct (find_wikitable env (text res)) as [table|].
  - erewrite bind_ok by reflexivity.
    destruct (find_all_tr table) as [|row0 rest] eqn:Hrows.
    + rewrite (bind_raise _ _ _ _ _ (read_headers_rowless env table _ Hrows)).
      unfold in_model; simpl; discriminate.
    + rewrite (bind_ok _ _ _ _ _ (read_headers_row env table row0 rest _ Hrows)).
      set (headers := map _ (find_all_th row0)).
      pose proof (DataFrame_of_uniform_rows (extract_rows headers table) headers
                    (extract_rows_width headers table)) as Hd.
      rewrite (bind_ok _ _ _ _ _ (build_frame_run _ _ _ w Hd)).
      set (w1 := mkWorld _ _ _).
      destruct (export_ok env (List.length (frames w)) _ w1
                  (nth_error_fresh _ _)) as (w2 & Hexp & Hfr).
      rewrite (bind_ok _ _ _ _ _ Hexp).
      eapply interactive_search_in_model.
      rewrite Hfr; apply nth_error_fresh.
  - erewrite bind_raise by (run_step; reflexivity).
    unfold in_model; simpl; discriminate.
Qed.

Lemma script_in_model env w : in_model (script env w).
Proof.
  destruct (tts_init env) as [e|] eqn:Hinit.
  - unfold in_model, script, init_engine; rewrite Hinit.
    erewrite bind_raise by reflexivity; simpl; discriminate.
  - rewrite (script_start env w Hinit); unfold bind.
    pose proof (fetch_in_model env
                  (after_speak env "Starting data fetch from Wikipedia..." w)) as Hf.
    destruct (fetch env _) as [[res|e] w1]; [apply process_in_model|].
    unfold in_model in *; simpl in *; intros Heq; apply Hf.
    now injection Heq as ->.
Qed.

(** Whatever the environment, the script ends, with an exit status. *)
Theorem run_defined env : exists status out, run env = Some (status, out).
Proof.
  unfold run; pose proof (script_in_model env initial_world) as Hin.
  destruct (script env initial_world) as [[u|[code|e|]] w]; eauto.
  exfalso; now apply Hin.
Qed.

(* ================================================================== *)
(** ** The claims *)
(* ================================================================== *)

(** C1. For a table whose header row gave N header cells, the rows the
    extraction loop stores are the later rows of the table that have at
    least N cells, each cut to its first N cells, in document order: a
    row with fewer than N cells is dropped, a row with more is truncated.
    Every stored row has exactly N cells; the DataFrame built from them
    has these rows, with no missing cell, and it is the table the script
    keeps. *)
Theorem C1_rows_have_header_width :
  forall (headers : list string) (table : table_tag),
    extract_rows headers table
    = map (firstn (List.length headers))
        (filter (fun cols => List.length headers <=? List.length cols)
           (map stripped_cells (tl (find_all_tr table))))
    /\ Forall (fun r => List.length r = List.length headers)
         (extract_rows headers table)
    /\ Pandas.DataFrame_of_rows (extract_rows headers table) headers
       = Ok (mkDataFrame headers (map (map Some) (extract_rows headers table)))
    /\ Forall (fun r => List.length r = List.length headers)
         (map (map Some) (extract_rows headers table))
    /\ (forall w,
           build_frame (extract_rows headers table) headers w
           = (Ok (List.length (frames w)),
              mkWorld (console w ++ column_listing headers)
                (frames w
                 ++ [mkDataFrame headers
                       (map (map Some) (extract_rows headers table))])
                (speak_calls w))).
Proof.
  intros headers table.
  pose proof (extract_rows_width headers table) as Hw.
  pose proof (DataFrame_of_uniform_rows _ headers Hw) as Hd.
  repeat split.
  - apply extract_rows_eq.
  - exact Hw.
  - exact Hd.
  - rewrite Forall_map; eapply Forall_impl; [|exact Hw].
    intros r Hr; now rewrite length_map.
  - intros w; now rewrite (build_frame_run _ _ _ w Hd).
Qed.

(** C2, for what the filter of line 108 computes.  Take a table whose
    first column is the search column and whose name is carried by no
    other column, and a line of input whose trimmed text, the query, is
    neither empty nor the sentinel.  The pass of the loop stores, as a
    new table, exactly the rows of the base table, in their original
    order, whose first-column value, lowered by [str.lower], contains the
    lowered query as a substring; a row with a missing value is never
    kept.  In particular a row is kept when its value and the query
    lower to the same text, as when the query is the value itself. *)
Theorem C2_match_set_is_lowered_containment :
  forall env df d name_col others line w,
    nth_error (frames w) df = Some d ->
    columns d = name_col :: others ->
    ~ In name_col others ->
    PyStr.strip line <> "" ->
    PyStr.lower (PyStr.strip line) <> "exit" ->
    (exists w',
        iteration env df name_col line w = (Ok Continue, w')
        /\ frames w'
           = frames w
             ++ [mkDataFrame (columns d)
                   (filter (entity_matches (PyStr.strip line)) (data d))])
    /\ (forall row,
           entity_matches (PyStr.strip line) row = true
           <-> exists v, Pandas.cell_at row 0 = Some v
                         /\ substring_of (PyStr.lower (PyStr.strip line))
                              (PyStr.lower v))
    /\ (forall row v,
           In row (data d) ->
           Pandas.cell_at row 0 = Some v ->
           PyStr.lower v = PyStr.lower (PyStr.strip line) ->
           In row (filter (entity_matches (PyStr.strip line)) (data d)))
    /\ (forall row,
           In row (data d) ->
           Pandas.cell_at row 0 = Some (PyStr.strip line) ->
           In row (filter (entity_matches (PyStr.strip line)) (data d))).
Proof.
  intros env df d name_col others line w Hd Hcols Hnd Hne Hnx.
  assert (Hsame : forall row v,
             In row (data d) ->
             Pandas.cell_at row 0 = Some v ->
             PyStr.lower v = PyStr.lower (PyStr.strip line) ->
             In row (filter (entity_matches (PyStr.strip line)) (data d))).
  { intros row v Hin Hv Hlow; apply filter_In; split; [exact Hin|].
    apply entity_matches_iff; exists v; split; [exact Hv|].
    rewrite Hlow; apply substring_refl. }
  split; [|split; [intros row; apply entity_matches_iff|split]].
  - eapply iteration_filtered; try eassumption.
    eapply filter_frame_first_column; eassumption.
  - exact Hsame.
  - intros row Hin Hv; now apply (Hsame row (PyStr.strip line)).
Qed.

Lemma C2_witness :
  exists w',
    iteration (sample_env 200 sample_table []) 0 "Country" " fRANc " sample_world
    = (Ok Continue, w')
    /\ frames w'
       = [sample_frame;
          mkDataFrame ["Country"; "Active Personnel"]
            [[Some "France"; Some "200000"]]].
Proof.
  apply (C2_match_set_is_lowered_containment
           (sample_env 200 sample_table []) 0 sample_frame
           "Country" ["Active Personnel"] " fRANc " sample_world).
  - reflexivity.
  - reflexivity.
  - simpl; intuition discriminate.
  - vm_compute; discriminate.
  - vm_compute; discriminate.
Defined.

(** C2 for every table does not hold.  In a table whose first two
    columns carry the same name, a row holds the query in its first
    column, yet the pass stores no match set: [df[name_col]] is a
    DataFrame, the filter of line 108 raises, and the pass ends the
    script. *)
Lemma C2_counterexample :
  nth_error (frames twin_world) 0 = Some twin_frame
  /\ PyStr.strip "france" <> ""
  /\ PyStr.lower (PyStr.strip "france") <> "exit"
  /\ filter (entity_matches (PyStr.strip "france")) (data twin_frame)
     = [[Some "France"; Some "200000"]]
  /\ ~ (exists w',
          iteration (sample_env 200 sample_table []) 0 "Country" "france"
            twin_world
          = (Ok Continue, w')).
Proof.
  repeat split; try (vm_compute; discriminate).
  intros [w' H]; vm_compute in H; discriminate.
Qed.

(** C3. Suppose the page was fetched and the table element found.
    If the table has no row at all, the script says its "ERROR: Table
    appears empty or headers could not be read." message and exits with
    status 1.  If the first row exists but holds no header cell, the
    header list is empty, the script goes on to store and export a table
    without columns, and line 89 then raises an IndexError that nothing
    catches: the process ends with status 1 and the interpreter's report
    of that error as its last output. *)
Theorem C3_unreadable_headers_are_fatal :
  forall env res table,
    tts_init env = None ->
    http_get env url request_headers = inr res ->
    passes_status res ->
    find_wikitable env (text res) = Some table ->
    (find_all_tr table = [] ->
     run env
     = Some (1%Z,
             console (fetched env)
             ++ spoken env 1
                  "ERROR: Table appears empty or headers could not be read."))
    /\ (forall row0 rest,
           find_all_tr table = row0 :: rest ->
           find_all_th row0 = [] ->
           exists out,
             run env
             = Some (1%Z,
                     out ++ [ETraceback
                               (IndexError
                                  "index 0 is out of bounds for axis 0 with size 0")])).
Proof.
  intros env res table Hinit Hget Hst Hfind; split.
  - intros Hrows; unfold run.
    rewrite (script_fetched env res Hinit Hget Hst); unfold process.
    rewrite (bind_ok _ _ _ _ _ (locate_table_found env res table _ Hfind)).
    rewrite (bind_raise _ _ _ _ _ (read_headers_rowless env table _ Hrows)).
    reflexivity.
  - intros row0 rest Hrows Hth; unfold run.
    rewrite (script_fetched env res Hinit Hget Hst); unfold process.
    rewrite (bind_ok _ _ _ _ _ (locate_table_found env res table _ Hfind)).
    rewrite (bind_ok _ _ _ _ _ (read_headers_row env table row0 rest _ Hrows)).
    rewrite Hth; simpl map.
    pose proof (DataFrame_of_uniform_rows (extract_rows [] table) []
                  (extract_rows_width [] table)) as Hd.
    rewrite (bind_ok _ _ _ _ _ (build_frame_run _ _ _ (fetched env) Hd)).
    set (w1 := mkWorld _ _ _).
    destruct (export_ok env (List.length (frames (fetched env))) _ w1
                (nth_error_fresh _ _)) as (w2 & Hexp & Hfr).
    rewrite (bind_ok _ _ _ _ _ Hexp).
    erewrite interactive_search_no_column.
    + eexists; reflexivity.
    + rewrite Hfr; apply nth_error_fresh.
    + reflexivity.
Qed.

Lemma C3_witness :
  run (sample_env 200 rowless_table [])
  = Some (1%Z,
          console (fetched (sample_env 200 rowless_table []))
          ++ spoken (sample_env 200 rowless_table []) 1
               "ERROR: Table appears empty or headers could not be read.")
  /\ exists out,
       run (sample_env 200 headerless_table [])
       = Some (1%Z,
               out ++ [ETraceback
                         (IndexError
                            "index 0 is out of bounds for axis 0 with size 0")]).
Proof.
  split.
  - apply (C3_unreadable_headers_are_fatal
             (sample_env 200 rowless_table []) (mkResponse 200 "" "<html>")
             rowless_table);
      try reflexivity.
    left; simpl; lia.
  - apply (C3_unreadable_headers_are_fatal
             (sample_env 200 headerless_table []) (mkResponse 200 "" "<html>")
             headerless_table)
      with (row0 := [mkCell td "Country"; mkCell td "Active Personnel"])
           (rest := [[mkCell td "France"; mkCell td "200000"]]);
      try reflexivity.
    left; simpl; lia.
Defined.

(** C4, for the failures the script detects.  When the request raises
    a connection error, a timeout or any other RequestException, or the
    response comes with a status from 400 to 599, the script says its
    "FATAL ERROR" message with the details and exits at once with status
    1: the output ends there, and it holds exactly one request.  A
    response with any other status is not a failure: the script goes on
    to read the table from its body. *)
Theorem C4_fetch_failure_is_fatal :
  forall env,
    tts_init env = None ->
    (forall details,
        fetch_fails env details ->
        run env
        = Some (1%Z,
                console (fetched env)
                ++ spoken env 1
                     ("FATAL ERROR: Could not connect to Wikipedia. Details: "
                      +++ details))
        /\ filter is_get
             (console (fetched env)
              ++ spoken env 1
                   ("FATAL ERROR: Could not connect to Wikipedia. Details: "
                    +++ details))
           = [EGet url request_headers])
    /\ (forall res,
           http_get env url request_headers = inr res ->
           passes_status res ->
           script env initial_world = process env res (fetched env)).
Proof.
  intros env Hinit; split.
  - intros details Hfail; split.
    + unfold run; rewrite (script_start env _ Hinit).
      rewrite (bind_raise _ _ _ _ _ (fetch_failure env details _ Hfail)).
      reflexivity.
    + rewrite console_fetched, !filter_app, !filter_spoken by reflexivity.
      reflexivity.
  - intros res Hget Hst; now apply script_fetched.
Qed.

Lemma C4_witness :
  run offline_env
  = Some (1%Z,
          console (fetched offline_env)
          ++ spoken offline_env 1
               "FATAL ERROR: Could not connect to Wikipedia. Details: Max retries exceeded")
  /\ run (sample_env 404 sample_table [])
     = Some (1%Z,
             console (fetched (sample_env 404 sample_table []))
             ++ spoken (sample_env 404 sample_table []) 1
                  ("FATAL ERROR: Could not connect to Wikipedia. Details: "
                   +++ http_error_message (mkResponse 404 "" "<html>"))).
Proof.
  split.
  - apply (proj1 (C4_fetch_failure_is_fatal offline_env eq_refl)
             "Max retries exceeded").
    left; exists (ConnectionError "Max retries exceeded"); repeat split.
  - apply (proj1 (C4_fetch_failure_is_fatal (sample_env 404 sample_table [])
                    eq_refl)).
    right; exists (mkResponse 404 "" "<html>"); repeat split; simpl; lia.
Defined.

(** C4 for every status outside 2xx does not hold.  A response with
    status 300 is outside the 2xx range, yet [raise_for_status] lets it
    through: the script reads the table from its body, runs the search
    loop and exits with status 0. *)
Lemma C4_counterexample :
  exists res out,
    http_get (sample_env 300 sample_table ["exit"]) url request_headers = inr res
    /\ ~ (200 <= status_code res < 300)%Z
    /\ run (sample_env 300 sample_table ["exit"]) = Some (0%Z, out).
Proof.
  eexists; eexists; split; [reflexivity|split].
  - simpl; lia.
  - vm_compute; reflexivity.
Qed.

(** C5.  On a machine without a speech driver the failure of the
    speech pathway is not discarded: [pyttsx3.init()] at line 9 stands
    outside the [try] of [speak], the exception reaches the top, and the
    process ends with status 1 before it has printed or fetched
    anything. *)
Theorem C5_engine_failure_at_startup_propagates :
  run no_speech_env
  = Some (1%Z, [ETraceback (RuntimeError "eSpeak is not installed")]).
Proof. reflexivity. Qed.

(** Unescaped, the dot is pattern syntax: it matches any character. *)
Example dot_unescaped_is_a_wildcard :
  Re.compile "u.s." = Re.Compiled (Re.Cat (Re.Lit "u") (Re.Cat Re.Any
                        (Re.Cat (Re.Lit "s") (Re.Cat Re.Any Re.Empty))))
  /\ Pandas.str_contains [Some "russia"] "u.s." = Ok [true]
  /\ Pandas.str_contains [Some "russia"] (Re.escape "u.s.") = Ok [false].
Proof. repeat split. Qed.


(** C7. A pass of the loop ends the loop exactly when the trimmed
    input, put in lower case, is "exit".  In that case the pass only
    says goodbye: no table is filtered, no object is created, and the
    loop returns without reading further input. *)
Theorem C7_exit_iff_sentinel :
  forall env df name_col line w,
    (fst (iteration env df name_col line w) = Ok Break
     <-> PyStr.lower (PyStr.strip line) = "exit")
    /\ (PyStr.lower (PyStr.strip line) = "exit" ->
        iteration env df name_col line w
        = (Ok Break, after_speak env "Session terminated. Goodbye!" w)
        /\ forall rest,
             search_loop env df name_col (line :: rest) w
             = (Ok tt,
                after_speak env "Session terminated. Goodbye!"
                  (log [EPrompt prompt] w))).
Proof.
  intros env df name_col line w; split; [split|].
  - intros Hb.
    destruct (string_dec (PyStr.lower (PyStr.strip line)) "exit") as [E|E];
      [exact E|].
    exfalso; exact (iteration_not_break env df name_col line w E Hb).
  - intros E; now rewrite iteration_exit.
  - intros E; split; [now apply iteration_exit|].
    intros rest; rewrite search_loop_cons, iteration_exit by exact E.
    reflexivity.
Qed.

Lemma C7_witness :
  iteration (sample_env 200 sample_table []) 0 "Country" "  ExIt " sample_world
  = (Ok Break,
     after_speak (sample_env 200 sample_table []) "Session terminated. Goodbye!"
       sample_world).
Proof.
  apply (C7_exit_iff_sentinel (sample_env 200 sample_table []) 0 "Country"
           "  ExIt " sample_world).
  reflexivity.
Defined.

(** C8. When the trimmed input is empty, the pass asks for a country
    name and does nothing else: no table is filtered, the store of
    tables is unchanged, the loop does not end, and it goes on to prompt
    for the next line. *)
Theorem C8_empty_input_reprompts :
  forall env df name_col line w,
    PyStr.strip line = "" ->
    iteration env df name_col line w
    = (Ok Continue, after_speak env "Please enter a country name to search." w)
    /\ frames (snd (iteration env df name_col line w)) = frames w
    /\ forall rest,
         search_loop env df name_col (line :: rest) w
         = search_loop env df name_col rest
             (after_speak env "Please enter a country name to search."
                (log [EPrompt prompt] w)).
Proof.
  intros env df name_col line w E; split; [|split].
  - now apply iteration_empty.
  - now rewrite iteration_empty.
  - intros rest; rewrite search_loop_cons, iteration_empty by exact E.
    reflexivity.
Qed.

Lemma C8_witness :
  iteration (sample_env 200 sample_table []) 0 "Country" "   " sample_world
  = (Ok Continue,
     after_speak (sample_env 200 sample_table [])
       "Please enter a country name to search." sample_world).
Proof.
  apply (C8_empty_input_reprompts (sample_env 200 sample_table []) 0 "Country"
           "   " sample_world).
  reflexivity.
Defined.

(** C9. The base table is an object of the store that no pass of the
    loop changes: after any one line of input, and after any sequence of
    lines, the store still holds the same table under the same
    reference, and everything that was in the store is still there.  A
    query that is filtered adds the filtered table to the store as a new
    object, with the columns of the base table. *)
Theorem C9_base_table_is_never_mutated :
  forall env df name_col d w,
    nth_error (frames w) df = Some d ->
    (forall line,
        nth_error (frames (snd (iteration env df name_col line w))) df = Some d
        /\ extends w (snd (iteration env df name_col line w)))
    /\ (forall lines,
           nth_error (frames (snd (search_loop env df name_col lines w))) df
           = Some d
           /\ extends w (snd (search_loop env df name_col lines w)))
    /\ (forall line r,
           PyStr.strip line <> "" ->
           PyStr.lower (PyStr.strip line) <> "exit" ->
           filter_frame d name_col (Re.escape (PyStr.lower (PyStr.strip line)))
           = Ok r ->
           frames (snd (iteration env df name_col line w)) = frames w ++ [r]
           /\ columns r = columns d
           /\ df <> List.length (frames w)).
Proof.
  intros env df name_col d w Hd; split; [|split].
  - intros line; pose proof (append_only_iteration env df name_col line w) as He.
    split; [eapply extends_keeps; eassumption | exact He].
  - intros lines; pose proof (append_only_search_loop env df name_col lines w) as He.
    split; [eapply extends_keeps; eassumption | exact He].
  - intros line r Hne Hnx Hf.
    destruct (iteration_filtered env df d name_col line r w Hd Hne Hnx Hf)
      as (w' & Hit & Hfr).
    rewrite Hit; simpl snd; split; [exact Hfr|split].
    + unfold filter_frame in Hf.
      destruct (Pandas.getitem d name_col) as [c|]; [|discriminate].
      destruct (Pandas.str c) as [vs|]; [|discriminate].
      destruct (Pandas.str_contains _ _) as [mask|]; [|discriminate].
      now injection Hf as <-.
    + assert (df < List.length (frames w)) by (apply nth_error_Some; congruence).
      lia.
Qed.

Lemma C9_witness :
  nth_error
    (frames (snd (search_loop (sample_env 200 sample_table []) 0 "Country"
                    ["franc"; ""; "xyz"; "exit"] sample_world))) 0
  = Some sample_frame.
Proof.
  apply (C9_base_table_is_never_mutated (sample_env 200 sample_table []) 0
           "Country" sample_frame sample_world).
  reflexivity.
Defined.

(** C10. Both writes stand in one [try].  When [to_csv] raises,
    [to_excel] is not called: the export only calls [to_csv], says the
    warning with the details of the failure, and returns, so the script
    goes on.  When [to_csv] succeeds and [to_excel] raises, the export
    says the same warning and returns as well. *)
Theorem C10_failed_csv_skips_excel :
  forall env df d w e,
    nth_error (frames w) df = Some d ->
    (to_csv env d csv_path = Some e ->
     export env df w
     = (Ok tt, after_speak env (warning e) (log [EToCsv csv_path] w))
     /\ filter is_to_excel (console (snd (export env df w)))
        = filter is_to_excel (console w))
    /\ (to_csv env d csv_path = None ->
        to_excel env d xlsx_path = Some e ->
        export env df w
        = (Ok tt,
           after_speak env (warning e)
             (log [EToCsv csv_path; EToExcel xlsx_path] w))).
Proof.
  intros env df d w e Hd; split.
  - intros Hcsv.
    assert (Hrun : export env df w
                   = (Ok tt, after_speak env (warning e) (log [EToCsv csv_path] w)))
      by (rewrite (export_run env df d w Hd), Hcsv; reflexivity).
    split; [exact Hrun|].
    rewrite Hrun; simpl.
    rewrite !filter_app, filter_spoken by reflexivity.
    simpl; now rewrite !app_nil_r.
  - intros Hcsv Hx; rewrite (export_run env df d w Hd), Hcsv, Hx; reflexivity.
Qed.

Lemma C10_witness :
  export full_disk_env 0 sample_world
  = (Ok tt,
     after_speak full_disk_env (warning (OSError "No space left on device"))
       (log [EToCsv csv_path] sample_world))
  /\ filter is_to_excel (console (snd (export full_disk_env 0 sample_world)))
     = filter is_to_excel (console sample_world).
Proof.
  apply (C10_failed_csv_skips_excel full_disk_env 0 sample_frame sample_world
           (OSError "No space left on device")).
  - reflexivity.
  - reflexivity.
Defined.

(* ================================================================== *)
(** ** Further properties: trimming *)
(* ================================================================== *)

Lemma lstrip_all_space (s : string) : all_space s = true -> PyStr.lstrip s = "".
Proof.
  induction s as [|c s IH]; [reflexivity|]; simpl.
  intros H; apply andb_true_iff in H as [Hc Hs]; rewrite Hc; auto.
Qed.

Lemma rstrip_all_space (s : string) : all_space s = true -> PyStr.rstrip s = "".
Proof.
  induction s as [|c s IH]; [reflexivity|]; simpl.
  intros H; apply andb_true_iff in H as [Hc Hs]; rewrite (IH Hs), Hc; reflexivity.
Qed.

Lemma lstrip_pad_left (l s : string) :
  all_space l = true -> PyStr.lstrip (l +++ s) = PyStr.lstrip s.
Proof.
  induction l as [|c l IH]; [reflexivity|]; simpl.
  intros H; apply andb_true_iff in H as [Hc Hl]; rewrite Hc; auto.
Qed.

Lemma rstrip_pad_right (s r : string) :
  all_space r = true -> PyStr.rstrip (s +++ r) = PyStr.rstrip s.
Proof.
  intros Hr; induction s as [|c s IH]; simpl.
  - now apply rstrip_all_space.
  - now rewrite IH.
Qed.

Lemma strip_pad_right (s r : string) :
  all_space r = true -> PyStr.strip (s +++ r) = PyStr.strip s.
Proof.
  intros Hr; unfold PyStr.strip; induction s as [|c s IH]; simpl.
  - now rewrite (lstrip_all_space r Hr).
  - destruct (PyStr.isspace c); [exact IH|].
    change (String c (s +++ r)) with (String c s +++ r).
    now apply rstrip_pad_right.
Qed.

(** Whitespace around a text does not change what [strip] gives. *)
Lemma strip_pad (l s r : string) :
  all_space l = true -> all_space r = true ->
  PyStr.strip (l +++ s +++ r) = PyStr.strip s.
Proof.
  intros Hl Hr; unfold PyStr.strip; rewrite (lstrip_pad_left l _ Hl).
  now apply (strip_pad_right s r).
Qed.

Lemma lstrip_head (s : string) : not_space (first_char (PyStr.lstrip s)).
Proof.
  induction s as [|c s IH]; simpl; [exact I|].
  destruct (PyStr.isspace c) eqn:Hc; [exact IH | exact Hc].
Qed.

Lemma lstrip_fixed (s : string) :
  not_space (first_char s) -> PyStr.lstrip s = s.
Proof. destruct s as [|c s]; simpl; [reflexivity | now intros ->]. Qed.

Lemma rstrip_head (s : string) :
  not_space (first_char s) -> first_char (PyStr.rstrip s) = first_char s.
Proof.
  destruct s as [|c s]; simpl; [reflexivity|]; intros Hc.
  destruct (PyStr.rstrip s); [now rewrite Hc | reflexivity].
Qed.

Lemma rstrip_last (s : string) : not_space (last_char (PyStr.rstrip s)).
Proof.
  induction s as [|c s IH]; simpl; [exact I|].
  destruct (PyStr.rstrip s) as [|d r] eqn:Hr.
  - destruct (PyStr.isspace c) eqn:Hc; simpl; [exact I | exact Hc].
  - exact IH.
Qed.

Lemma rstrip_idempotent (s : string) :
  PyStr.rstrip (PyStr.rstrip s) = PyStr.rstrip s.
Proof.
  induction s as [|c s IH]; simpl; [reflexivity|].
  destruct (PyStr.rstrip s) as [|d r] eqn:Hr.
  - destruct (PyStr.isspace c) eqn:Hc; simpl; [reflexivity | now rewrite Hc].
  - change (PyStr.rstrip (String c (String d r)))
      with (match PyStr.rstrip (String d r) with
            | EmptyString =>
                if PyStr.isspace c then EmptyString else String c EmptyString
            | String x y => String c (String x y)
            end).
    now rewrite IH.
Qed.

(** What [strip] gives has no whitespace at either end, and [strip]
    leaves it alone. *)
Lemma strip_trimmed (s : string) : trimmed (PyStr.strip s).
Proof.
  unfold trimmed, PyStr.strip.
  pose proof (lstrip_head s) as Hh.
  assert (Hfirst : not_space (first_char (PyStr.rstrip (PyStr.lstrip s))))
    by (rewrite rstrip_head; assumption).
  split; [exact Hfirst | split; [apply rstrip_last|]].
  rewrite (lstrip_fixed _ Hfirst); apply rstrip_idempotent.
Qed.

Lemma Forall_firstn_kept {A} (P : A -> Prop) (n : nat) (l : list A) :
  Forall P l -> Forall P (firstn n l).
Proof.
  intros H; revert n; induction H as [|x l Hx Hl IH]; intros [|n]; simpl;
    constructor; auto.
Qed.

(** X3. Every header the script reads and every cell it stores is
    trimmed: it neither begins nor ends with whitespace, and trimming it
    again changes nothing. *)
Theorem X3_headers_and_cells_are_trimmed :
  forall env table row0 rest w,
    find_all_tr table = row0 :: rest ->
    exists headers,
      read_headers env table w = (Ok headers, w)
      /\ Forall trimmed headers
      /\ Forall (Forall trimmed) (extract_rows headers table).
Proof.
  intros env table row0 rest w Hrows; eexists; split; [|split].
  - apply (read_headers_row env table row0 rest w Hrows).
  - rewrite Forall_map, Forall_forall; intros c _; apply strip_trimmed.
  - rewrite extract_rows_eq, Forall_map, Forall_forall.
    intros cols Hin; apply filter_In in Hin as [Hin _].
    apply in_map_iff in Hin as (row & <- & _).
    apply Forall_firstn_kept; unfold stripped_cells.
    rewrite Forall_map, Forall_forall; intros c _; apply strip_trimmed.
Qed.

Lemma X3_witness :
  exists headers,
    read_headers (sample_env 200 padded_table []) padded_table sample_world
    = (Ok headers, sample_world)
    /\ Forall trimmed headers
    /\ Forall (Forall trimmed) (extract_rows headers padded_table).
Proof.
  apply (X3_headers_and_cells_are_trimmed (sample_env 200 padded_table [])
           padded_table
           [mkCell th " Country "; mkCell th "Active Personnel"]
           [[mkCell th " France"; mkCell td "200000 "];
            [mkCell td "Germany"; mkCell td "180000"]]
           sample_world).
  reflexivity.
Defined.

(** X4. Whitespace typed before or after the text of a line does not
    matter: the pass of the loop on the padded line is the pass on the
    text alone, outcome and output. *)
Theorem X4_padding_of_the_input_is_ignored :
  forall env df name_col l s r w,
    all_space l = true ->
    all_space r = true ->
    iteration env df name_col (l +++ s +++ r) w = iteration env df name_col s w.
Proof.
  intros env df name_col l s r w Hl Hr; unfold iteration.
  now rewrite (strip_pad l s r Hl Hr).
Qed.

Lemma X4_witness :
  iteration (sample_env 200 sample_table []) 0 "Country"
    ("  " +++ "franc" +++ " ") sample_world
  = iteration (sample_env 200 sample_table []) 0 "Country" "franc" sample_world.
Proof.
  apply (X4_padding_of_the_input_is_ignored (sample_env 200 sample_table []) 0
           "Country" "  " "franc" " " sample_world); reflexivity.
Defined.

(* ================================================================== *)
(** ** Further properties: speaking, locating, extracting, filtering *)
(* ================================================================== *)

Lemma filter_other_than_speech env n text :
  filter (fun e => negb (is_speech e)) (spoken env n text)
  = [EPrint ("🗣️ " +++ text)].
Proof.
  unfold spoken; simpl.
  destruct (tts_say env n text); [reflexivity|]; simpl.
  destruct (tts_runAndWait env n); reflexivity.
Qed.

(** X1. What [say] and [runAndWait] raise never shows outside [speak]:
    on two machines that differ in whether and how these two calls fail,
    [speak] ends the same way, leaves the same tables, and apart from
    the sounds of the speech device gives the same output. *)
Theorem X1_speech_failures_do_not_change_speak :
  forall env env' text w,
    fst (speak env text w) = fst (speak env' text w)
    /\ frames (snd (speak env text w)) = frames (snd (speak env' text w))
    /\ filter (fun e => negb (is_speech e)) (console (snd (speak env text w)))
       = filter (fun e => negb (is_speech e))
           (console (snd (speak env' text w))).
Proof.
  intros env env' text w; rewrite !speak_run; simpl.
  split; [reflexivity|split; [reflexivity|]].
  now rewrite !filter_app, !filter_other_than_speech.
Qed.

(** X2. When the page holds no table of the expected class, the script
    says so and exits with status 1 right after the single request: it
    reads no header, writes no file and asks for no input. *)
Theorem X2_missing_table_is_fatal :
  forall env res,
    tts_init env = None ->
    http_get env url request_headers = inr res ->
    passes_status res ->
    find_wikitable env (text res) = None ->
    run env
    = Some (1%Z,
            console (fetched env)
            ++ spoken env 1
                 "ERROR: Could not find the expected data table on the Wikipedia page.").
Proof.
  intros env res Hinit Hget Hst Hnone; unfold run.
  rewrite (script_fetched env res Hinit Hget Hst); unfold process, locate_table.
  rewrite Hnone.
  erewrite bind_raise by (run_step; reflexivity).
  reflexivity.
Qed.

Lemma X2_witness :
  run tableless_env
  = Some (1%Z,
          console (fetched tableless_env)
          ++ spoken tableless_env 1
               "ERROR: Could not find the expected data table on the Wikipedia page.").
Proof.
  apply (X2_missing_table_is_fatal tableless_env (mkResponse 200 "OK" "<html>"));
    try reflexivity.
  left; simpl; lia.
Defined.

Lemma filter_all {A} (p : A -> bool) (l : list A) :
  Forall (fun x => p x = true) l -> filter p l = l.
Proof.
  induction 1 as [|x l Hx Hl IH]; simpl; [reflexivity|].
  now rewrite Hx, IH.
Qed.

Lemma map_id_on {A} (f : A -> A) (l : list A) :
  Forall (fun x => f x = x) l -> map f l = l.
Proof.
  induction 1 as [|x l Hx Hl IH]; simpl; [reflexivity|].
  now rewrite Hx, IH.
Qed.

(** X5. A table all of whose later rows have as many cells as the
    header row is stored whole: every row is kept, in order, with its
    cells trimmed, whether they are header cells or data cells. *)
Theorem X5_rectangular_table_is_kept_whole :
  forall headers table,
    Forall (fun row => List.length row = List.length headers)
      (tl (find_all_tr table)) ->
    extract_rows headers table
    = map (map (fun c => PyStr.strip (cell_text c))) (tl (find_all_tr table)).
Proof.
  intros headers table Hall; rewrite extract_rows_eq.
  assert (Hs : Forall (fun cols => List.length cols = List.length headers)
                 (map stripped_cells (tl (find_all_tr table)))).
  { rewrite Forall_map; eapply Forall_impl; [|exact Hall].
    intros row Hrow; unfold stripped_cells, find_all_td_th.
    now rewrite length_map. }
  rewrite filter_all.
  - rewrite map_id_on; [reflexivity|].
    eapply Forall_impl; [|exact Hs].
    intros cols <-; apply firstn_all.
  - eapply Forall_impl; [|exact Hs].
    intros cols ->; apply Nat.leb_refl.
Qed.

Lemma X5_witness :
  extract_rows ["Country"; "Active Personnel"] padded_table
  = map (map (fun c => PyStr.strip (cell_text c))) (tl (find_all_tr padded_table)).
Proof.
  apply (X5_rectangular_table_is_kept_whole ["Country"; "Active Personnel"]
           padded_table).
  simpl; repeat constructor.
Defined.

Lemma positions_from_present (i : nat) (label : string) (labels : list string) :
  In label labels -> Pandas.positions_from i label labels <> [].
Proof.
  revert i; induction labels as [|l labels IH]; intros i Hin; [contradiction|].
  simpl; destruct (String.eqb_spec l label) as [->|Hne]; [discriminate|].
  destruct Hin as [->|Hin]; [contradiction | now apply IH].
Qed.

(** X6. When the name of the first column is also the name of a later
    column, [df[name_col]] is a DataFrame and has no [.str]: every pass
    on a line that is neither empty nor the sentinel raises an
    AttributeError, before any result is made or shown. *)
Theorem X6_repeated_first_label_breaks_the_search :
  forall env df d name_col others line w,
    nth_error (frames w) df = Some d ->
    columns d = name_col :: others ->
    In name_col others ->
    PyStr.strip line <> "" ->
    PyStr.lower (PyStr.strip line) <> "exit" ->
    iteration env df name_col line w = (Raise (Exc attribute_error), w).
Proof.
  intros env df d name_col others line w Hd Hcols Hin Hne Hnx.
  unfold iteration.
  destruct (String.eqb_spec (PyStr.lower (PyStr.strip line)) "exit");
    [contradiction|].
  destruct (String.eqb_spec (PyStr.strip line) ""); [contradiction|].
  run_step.
  erewrite bind_raise; [reflexivity|].
  unfold lift, filter_frame, Pandas.getitem, Pandas.positions.
  rewrite Hcols; simpl; rewrite String.eqb_refl.
  pose proof (positions_from_present 1 name_col others Hin) as Hp.
  destruct (Pandas.positions_from 1 name_col others); [contradiction|].
  reflexivity.
Qed.

Lemma X6_witness :
  iteration (sample_env 200 sample_table []) 0 "Country" "france" twin_world
  = (Raise (Exc attribute_error), twin_world).
Proof.
  apply (X6_repeated_first_label_breaks_the_search
           (sample_env 200 sample_table []) 0 twin_frame "Country" ["Country"]
           "france" twin_world).
  - reflexivity.
  - reflexivity.
  - left; reflexivity.
  - vm_compute; discriminate.
  - vm_compute; discriminate.
Defined.

(** X9. A more general query finds at least as much: when the lowered
    text of one query is a part of the lowered text of another, every
    row the filter of line 108 keeps for the longer query it also keeps
    for the shorter. *)
Theorem X9_shorter_query_matches_more :
  forall d name_col others q q' r r',
    columns d = name_col :: others ->
    ~ In name_col others ->
    substring_of (PyStr.lower q) (PyStr.lower q') ->
    filter_frame d name_col (Re.escape (PyStr.lower q)) = Ok r ->
    filter_frame d name_col (Re.escape (PyStr.lower q')) = Ok r' ->
    incl (data r') (data r).
Proof.
  intros d name_col others q q' r r' Hcols Hnin Hsub Hr Hr'.
  rewrite (filter_frame_first_column d name_col others q Hcols Hnin) in Hr.
  rewrite (filter_frame_first_column d name_col others q' Hcols Hnin) in Hr'.
  injection Hr as <-; injection Hr' as <-; simpl.
  intros row Hin; apply filter_In in Hin as [Hin Hm]; apply filter_In.
  split; [exact Hin|].
  apply entity_matches_iff in Hm as (v & Hv & Hci).
  apply entity_matches_iff; exists v; split; [exact Hv|].
  eapply substring_trans; eassumption.
Qed.

Lemma X9_witness :
  incl (data (mkDataFrame ["Country"; "Active Personnel"]
                [[Some "France"; Some "200000"]]))
       (data sample_frame).
Proof.
  apply (X9_shorter_query_matches_more sample_frame "Country"
           ["Active Personnel"] "AN" "franc").
  - reflexivity.
  - simpl; intuition discriminate.
  - exists "fr", "c"; reflexivity.
  - reflexivity.
  - reflexivity.
Defined.

(* ================================================================== *)
(** ** Further properties: what a pass shows and says *)
(* ================================================================== *)

Lemma positions_from_app (k : nat) (label : string) (pre l : list string) :
  ~ In label pre ->
  Pandas.positions_from k label (pre ++ l)
  = Pandas.positions_from (k + List.length pre) label l.
Proof.
  revert k; induction pre as [|p pre IH]; intros k Hnin; simpl.
  - now rewrite Nat.add_0_r.
  - destruct (String.eqb_spec p label) as [->|_].
    + exfalso; apply Hnin; now left.
    + rewrite IH by (intros H; apply Hnin; now right).
      f_equal; lia.
Qed.

Lemma positions_mid (pre : list string) (c : string) (cs : list string) :
  NoDup (pre ++ c :: cs) ->
  Pandas.positions c (pre ++ c :: cs) = [List.length pre].
Proof.
  intros Hnd; apply NoDup_remove_2 in Hnd.
  unfold Pandas.positions; rewrite positions_from_app.
  - simpl; rewrite String.eqb_refl, positions_from_absent; [reflexivity|].
    intros Hin; apply Hnd, in_or_app; now right.
  - intros Hin; apply Hnd, in_or_app; now left.
Qed.

Lemma format_lookup_mid (pre : list string) (c : string) (cs : list string)
  (prer : list (option string)) (v : option string) (rs : list (option string)) :
  NoDup (pre ++ c :: cs) ->
  List.length prer = List.length pre ->
  Pandas.format_lookup (pre ++ c :: cs) (prer ++ v :: rs) c = Pandas.str_of_cell v.
Proof.
  intros Hnd Hlen; unfold Pandas.format_lookup, Pandas.cell_at.
  rewrite (positions_mid pre c cs Hnd), <- Hlen.
  now rewrite nth_middle.
Qed.

Lemma lookups_combine (F : string -> string -> string) (cs : list string) :
  forall pre prer rs,
    NoDup (pre ++ cs) ->
    List.length prer = List.length pre ->
    List.length rs = List.length cs ->
    map (fun col => F col (Pandas.format_lookup (pre ++ cs) (prer ++ rs) col)) cs
    = map (fun '(col, v) => F col (Pandas.str_of_cell v)) (combine cs rs).
Proof.
  induction cs as [|c cs IH]; intros pre prer rs Hnd Hp Hr; [reflexivity|].
  destruct rs as [|v rs]; [discriminate|]; simpl.
  rewrite (format_lookup_mid pre c cs prer v rs Hnd Hp); f_equal.
  replace (pre ++ c :: cs) with ((pre ++ [c]) ++ cs)
    by (now rewrite <- app_assoc).
  replace (prer ++ v :: rs) with ((prer ++ [v]) ++ rs)
    by (now rewrite <- app_assoc).
  apply IH.
  - now rewrite <- app_assoc.
  - rewrite !length_app; simpl; lia.
  - simpl in Hr; lia.
Qed.

Lemma after_speaking_chain env (a b : string) (l : list string) (w : world) :
  after_speak env b (after_speaking env l (after_speak env a w))
  = after_speaking env ([a] ++ l ++ [b]) w.
Proof.
  unfold after_speaking; simpl; now rewrite fold_left_app.
Qed.

(** What lines 110-127 do for a result with at least one row, when the
    column names are unique and the first matching row is as wide as the
    table. *)
Lemma report_match env df result name_col others search w d r row more :
  nth_error (frames w) df = Some d ->
  nth_error (frames w) result = Some r ->
  columns d = name_col :: others ->
  columns r = columns d ->
  NoDup (columns d) ->
  data r = row :: more ->
  List.length row = List.length (columns d) ->
  report env df result name_col search w
  = (Ok tt,
     after_speaking env (narrated others row (S (List.length more)) search)
       (log (shown r) w)).
Proof.
  intros Hd Hr Hcols Hrc Hnd Hdata Hlen; unfold report.
  run_step.
  assert (He : Pandas.empty r = false)
    by (unfold Pandas.empty; now rewrite Hdata, Hrc, Hcols).
  rewrite He; change (negb false) with true; cbv iota.
  do 3 run_step.
  erewrite bind_ok by (rewrite Hdata; reflexivity).
  do 3 run_step.
  rewrite speak_run, !log_log, after_speaking_chain.
  rewrite Hcols in Hnd, Hlen.
  destruct row as [|v row]; [discriminate|].
  unfold narrated, shown, Pandas.head; rewrite Hdata, Hrc, Hcols; simpl map.
  pose proof (format_lookup_mid [] name_col others [] v row Hnd eq_refl) as H1.
  assert (Hrow : List.length row = List.length others)
    by (simpl in Hlen; lia).
  pose proof (lookups_combine (fun col t => col +++ ": " +++ t) others
                [name_col] [v] row Hnd eq_refl Hrow) as H2.
  cbn [app] in H1, H2; cbn [tl hd].
  rewrite H1; do 4 f_equal; exact H2.
Qed.

(** X7. For a query with matches, in a table with unique column names
    whose first matching row is as wide as the table, the pass stores
    the matches as a new table, shows its first five rows at most, and
    narrates the first match only: the entity, then every other column
    with its value in that row, then the number of all the matches. *)
Theorem X7_first_match_is_narrated :
  forall env df d name_col others line w row more,
    nth_error (frames w) df = Some d ->
    columns d = name_col :: others ->
    NoDup (columns d) ->
    PyStr.strip line <> "" ->
    PyStr.lower (PyStr.strip line) <> "exit" ->
    filter (entity_matches (PyStr.strip line)) (data d) = row :: more ->
    List.length row = List.length (columns d) ->
    iteration env df name_col line w
    = (Ok Continue,
       after_speaking env
         (narrated others row (S (List.length more)) (PyStr.strip line))
         (mkWorld
            (console w ++ shown (mkDataFrame (columns d) (row :: more)))
            (frames w ++ [mkDataFrame (columns d) (row :: more)])
            (speak_calls w))).
Proof.
  intros env df d name_col others line w row more
    Hd Hcols Hnd Hne Hnx Hf Hlen; unfold iteration.
  destruct (String.eqb_spec (PyStr.lower (PyStr.strip line)) "exit");
    [contradiction|].
  destruct (String.eqb_spec (PyStr.strip line) ""); [contradiction|].
  run_step.
  assert (Hnin : ~ In name_col others)
    by (rewrite Hcols in Hnd; now inversion Hnd).
  rewrite (filter_frame_first_column d name_col others _ Hcols Hnin), Hf.
  erewrite bind_ok by reflexivity.
  erewrite bind_ok by reflexivity.
  set (r := mkDataFrame (columns d) (row :: more)).
  set (w1 := mkWorld (console w) (frames w ++ [r]) (speak_calls w)).
  rewrite (bind_ok _ _ _ _ _
             (report_match env df (List.length (frames w)) name_col others
                (PyStr.strip line) w1 d r row more
                (nth_error_kept _ _ _ _ Hd) (nth_error_fresh _ _)
                Hcols eq_refl Hnd eq_refl Hlen)).
  reflexivity.
Qed.

Lemma X7_witness :
  iteration (sample_env 200 sample_table []) 0 "Country" "an" sample_world
  = (Ok Continue,
     after_speaking (sample_env 200 sample_table [])
       (narrated ["Active Personnel"] [Some "France"; Some "200000"] 2 "an")
       (mkWorld
          (shown sample_frame)
          [sample_frame; sample_frame] 0)).
Proof.
  apply (X7_first_match_is_narrated (sample_env 200 sample_table []) 0
           sample_frame "Country" ["Active Personnel"] "an" sample_world
           [Some "France"; Some "200000"] [[Some "Germany"; Some "180000"]]).
  - reflexivity.
  - reflexivity.
  - simpl; repeat constructor; simpl; intuition discriminate.
  - vm_compute; discriminate.
  - vm_compute; discriminate.
  - reflexivity.
  - reflexivity.
Defined.

Lemma report_no_match env df result name_col search w r :
  nth_error (frames w) result = Some r ->
  Pandas.empty r = true ->
  report env df result name_col search w
  = (Ok tt, after_speak env (no_match_message search) w).
Proof.
  intros Hr He; unfold report.
  run_step; rewrite He; change (negb true) with false; cbv iota.
  apply speak_run.
Qed.

(** X8. For a query that no row matches, the pass stores an empty
    result, shows no table, and says one thing only: that nothing was
    found for the query as typed, trimmed. *)
Theorem X8_no_match_is_announced_once :
  forall env df d name_col others line w,
    nth_error (frames w) df = Some d ->
    columns d = name_col :: others ->
    ~ In name_col others ->
    PyStr.strip line <> "" ->
    PyStr.lower (PyStr.strip line) <> "exit" ->
    filter (entity_matches (PyStr.strip line)) (data d) = [] ->
    iteration env df name_col line w
    = (Ok Continue,
       after_speak env (no_match_message (PyStr.strip line))
         (mkWorld (console w) (frames w ++ [mkDataFrame (columns d) []])
            (speak_calls w))).
Proof.
  intros env df d name_col others line w Hd Hcols Hnin Hne Hnx Hf.
  unfold iteration.
  destruct (String.eqb_spec (PyStr.lower (PyStr.strip line)) "exit");
    [contradiction|].
  destruct (String.eqb_spec (PyStr.strip line) ""); [contradiction|].
  run_step.
  rewrite (filter_frame_first_column d name_col others _ Hcols Hnin), Hf.
  erewrite bind_ok by reflexivity.
  erewrite bind_ok by reflexivity.
  erewrite bind_ok
    by (eapply report_no_match; [simpl; apply nth_error_fresh | reflexivity]).
  reflexivity.
Qed.

Lemma X8_witness :
  iteration (sample_env 200 sample_table []) 0 "Country" " xyz" sample_world
  = (Ok Continue,
     after_speak (sample_env 200 sample_table []) (no_match_message "xyz")
       (mkWorld [] [sample_frame; mkDataFrame ["Country"; "Active Personnel"] []]
          0)).
Proof.
  apply (X8_no_match_is_announced_once (sample_env 200 sample_table []) 0
           sample_frame "Country" ["Active Personnel"] " xyz" sample_world).
  - reflexivity.
  - reflexivity.
  - simpl; intuition discriminate.
  - vm_compute; discriminate.
  - vm_compute; discriminate.
  - reflexivity.
Defined.

(* ================================================================== *)
(** ** Further properties: the loop as a whole *)
(* ================================================================== *)

Lemma sentinel_true (line : string) :
  is_sentinel line = true <-> PyStr.lower (PyStr.strip line) = "exit".
Proof. unfold is_sentinel; apply String.eqb_eq. Qed.

Lemma sentinel_false (line : string) :
  is_sentinel line = false <-> PyStr.lower (PyStr.strip line) <> "exit".
Proof. unfold is_sentinel; apply String.eqb_neq. Qed.

(** X10. The loop stops at the first sentinel line: whatever is typed
    after it is never read, so the run is the same as if the input ended
    there. *)
Theorem X10_input_after_the_sentinel_is_never_read :
  forall env df name_col before line after w,
    is_sentinel line = true ->
    search_loop env df name_col (before ++ line :: after) w
    = search_loop env df name_col (before ++ [line]) w.
Proof.
  intros env df name_col before line after w Hs.
  apply sentinel_true in Hs.
  revert w; induction before as [|l before IH]; intros w; simpl app.
  - now rewrite !search_loop_cons, !iteration_exit.
  - rewrite !search_loop_cons.
    destruct (iteration env df name_col l (log [EPrompt prompt] w))
      as [[[|]|e] w']; auto.
Qed.

Lemma X10_witness :
  search_loop (sample_env 200 sample_table []) 0 "Country"
    (["franc"] ++ " EXIT" :: ["germany"; "xyz"]) sample_world
  = search_loop (sample_env 200 sample_table []) 0 "Country"
      (["franc"] ++ [" EXIT"]) sample_world.
Proof.
  apply (X10_input_after_the_sentinel_is_never_read
           (sample_env 200 sample_table []) 0 "Country" ["franc"] " EXIT"
           ["germany"; "xyz"] sample_world).
  reflexivity.
Defined.

(** With a first column whose name is not repeated, a pass on a line
    that is not the sentinel always goes on to the next prompt. *)
Lemma iteration_continues env df d name_col others line w :
  nth_error (frames w) df = Some d ->
  columns d = name_col :: others ->
  ~ In name_col others ->
  is_sentinel line = false ->
  exists w',
    iteration env df name_col line w = (Ok Continue, w')
    /\ nth_error (frames w') df = Some d.
Proof.
  intros Hd Hcols Hnin Hs; apply sentinel_false in Hs.
  destruct (string_dec (PyStr.strip line) "") as [E|Hne].
  - rewrite iteration_empty by exact E; eexists; split; [reflexivity|exact Hd].
  - destruct (iteration_filtered env df d name_col line _ w Hd Hne Hs
                (filter_frame_first_column d name_col others _ Hcols Hnin))
      as (w' & Hit & Hfr).
    exists w'; split; [exact Hit|].
    rewrite Hfr; now apply nth_error_kept.
Qed.

Lemma loop_reaches_sentinel env df d name_col others lines :
  columns d = name_col :: others ->
  ~ In name_col others ->
  Exists (fun l => is_sentinel l = true) lines ->
  forall w,
    nth_error (frames w) df = Some d ->
    exists w', search_loop env df name_col lines w = (Ok tt, w').
Proof.
  intros Hcols Hnin; induction lines as [|l lines IH]; intros Hex w Hd.
  - inversion Hex.
  - rewrite search_loop_cons.
    destruct (is_sentinel l) eqn:Hs.
    + apply sentinel_true in Hs; rewrite iteration_exit by exact Hs; eauto.
    + destruct (iteration_continues env df d name_col others l
                  (log [EPrompt prompt] w) Hd Hcols Hnin Hs) as (w' & -> & Hd').
      apply IH; [|exact Hd'].
      inversion Hex; subst; [congruence | assumption].
Qed.

Lemma loop_runs_out env df d name_col others lines :
  columns d = name_col :: others ->
  ~ In name_col others ->
  Forall (fun l => is_sentinel l = false) lines ->
  forall w,
    nth_error (frames w) df = Some d ->
    exists w', search_loop env df name_col lines w = (Raise (Exc eof_error), w').
Proof.
  intros Hcols Hnin; induction lines as [|l lines IH]; intros Hall w Hd.
  - simpl search_loop; run_step; eexists; reflexivity.
  - rewrite search_loop_cons; inversion Hall as [|? ? Hs Hrest]; subst.
    destruct (iteration_continues env df d name_col others l
                (log [EPrompt prompt] w) Hd Hcols Hnin Hs) as (w' & -> & Hd').
    now apply IH.
Qed.

Lemma interactive_search_run env df d c cs w :
  nth_error (frames w) df = Some d ->
  columns d = c :: cs ->
  interactive_search env df w
  = search_loop env df c (stdin env)
      (after_speak env
         ("Starting interactive search. Searching on the column: '"
          +++ c +++ "'.") w).
Proof.
  intros Hd Hc; unfold interactive_search, first_column.
  erewrite bind_ok by (run_step; rewrite Hc; reflexivity).
  run_step; reflexivity.
Qed.

(** The script from a fetched page whose table has a first row, up to
    the search loop. *)
Lemma process_reaches_loop env res table row0 rest name_col others w :
  find_wikitable env (text res) = Some table ->
  find_all_tr table = row0 :: rest ->
  map (fun c => PyStr.strip (cell_text c)) (find_all_th row0) = name_col :: others ->
  exists d w',
    process env res w = search_loop env (List.length (frames w)) name_col (stdin env) w'
    /\ nth_error (frames w') (List.length (frames w)) = Some d
    /\ columns d = name_col :: others.
Proof.
  intros Hfind Hrows Hh; unfold process.
  rewrite (bind_ok _ _ _ _ _ (locate_table_found env res table _ Hfind)).
  rewrite (bind_ok _ _ _ _ _ (read_headers_row env table row0 rest _ Hrows)).
  rewrite Hh.
  pose proof (DataFrame_of_uniform_rows _ (name_col :: others)
                (extract_rows_width (name_col :: others) table)) as Hd.
  rewrite (bind_ok _ _ _ _ _ (build_frame_run _ _ _ w Hd)).
  set (d := mkDataFrame _ _) in *.
  set (w1 := mkWorld _ _ _).
  destruct (export_ok env (List.length (frames w)) d w1 (nth_error_fresh _ _))
    as (w2 & Hexp & Hfr).
  rewrite (bind_ok _ _ _ _ _ Hexp).
  assert (Hd2 : nth_error (frames w2) (List.length (frames w)) = Some d)
    by (rewrite Hfr; apply nth_error_fresh).
  rewrite (interactive_search_run env _ d name_col others w2 Hd2 eq_refl).
  eexists d, _; split; [reflexivity|split; [exact Hd2 | reflexivity]].
Qed.

(** X12. Take a run in which the engine starts, the page arrives, the
    table is found and its first row gives at least one header, the first
    of them not repeated.  If one of the typed lines is the sentinel, the
    process ends with status 0.  If none is, the input runs out at a
    prompt: [input] raises EOFError, nothing catches it, and the process
    ends with status 1 and the interpreter's report of that error. *)
Theorem X12_session_ends_by_sentinel_or_end_of_input :
  forall env res table row0 rest name_col others,
    tts_init env = None ->
    http_get env url request_headers = inr res ->
    passes_status res ->
    find_wikitable env (text res) = Some table ->
    find_all_tr table = row0 :: rest ->
    map (fun c => PyStr.strip (cell_text c)) (find_all_th row0)
    = name_col :: others ->
    ~ In name_col others ->
    (Exists (fun l => is_sentinel l = true) (stdin env) ->
     exists out, run env = Some (0%Z, out))
    /\ (Forall (fun l => is_sentinel l = false) (stdin env) ->
        exists out, run env = Some (1%Z, out ++ [ETraceback eof_error])).
Proof.
  intros env res table row0 rest name_col others
    Hinit Hget Hst Hfind Hrows Hh Hnin.
  destruct (process_reaches_loop env res table row0 rest name_col others
              (fetched env) Hfind Hrows Hh) as (d & w' & Hp & Hd & Hcols).
  split; intros Hin; unfold run;
    rewrite (script_fetched env res Hinit Hget Hst), Hp.
  - destruct (loop_reaches_sentinel env _ d name_col others (stdin env)
                Hcols Hnin Hin w' Hd) as (w2 & ->).
    eexists; reflexivity.
  - destruct (loop_runs_out env _ d name_col others (stdin env)
                Hcols Hnin Hin w' Hd) as (w2 & ->).
    eexists; reflexivity.
Qed.

Lemma X12_witness :
  (exists out,
      run (sample_env 200 sample_table ["franc"; ""; "Exit "; "xyz"])
      = Some (0%Z, out))
  /\ (exists out,
         run (sample_env 200 sample_table ["franc"; "xyz"])
         = Some (1%Z, out ++ [ETraceback eof_error])).
Proof.
  split.
  - apply (X12_session_ends_by_sentinel_or_end_of_input
             (sample_env 200 sample_table ["franc"; ""; "Exit "; "xyz"])
             (mkResponse 200 "" "<html>") sample_table
             [mkCell th "Country"; mkCell th "Active Personnel"]
             [[mkCell th "France"; mkCell td "200000"];
              [mkCell td "Germany"; mkCell td "180000"]]
             "Country" ["Active Personnel"]);
      try reflexivity.
    + left; simpl; lia.
    + simpl; intuition discriminate.
    + simpl; do 2 apply Exists_cons_tl; apply Exists_cons_hd; reflexivity.
  - apply (X12_session_ends_by_sentinel_or_end_of_input
             (sample_env 200 sample_table ["franc"; "xyz"])
             (mkResponse 200 "" "<html>") sample_table
             [mkCell th "Country"; mkCell th "Active Personnel"]
             [[mkCell th "France"; mkCell td "200000"];
              [mkCell td "Germany"; mkCell td "180000"]]
             "Country" ["Active Personnel"]);
      try reflexivity.
    + left; simpl; lia.
    + simpl; intuition discriminate.
    + simpl; repeat constructor.
Defined.

(* ================================================================== *)
(** ** Further properties: every run *)
(* ================================================================== *)

Section Selection.

Variable p : event -> bool.
Hypothesis p_device : device_only p.

Lemma adds_none_ret {A} (a : A) : adds_none p (ret a).
Proof. intros w; reflexivity. Qed.

Lemma adds_none_raise {A} (e : exn) : adds_none p (@raise A e).
Proof. intros w; reflexivity. Qed.

Lemma adds_none_lift {A} (r : result A) : adds_none p (lift r).
Proof. intros w; reflexivity. Qed.

Lemma adds_none_read (ref : nat) : adds_none p (read_frame ref).
Proof. intros w; unfold read_frame; destruct (nth_error _ _); reflexivity. Qed.

Lemma adds_none_alloc (d : DataFrame) : adds_none p (alloc_frame d).
Proof. intros w; reflexivity. Qed.

Lemma adds_none_first_item {A} (xs : list A) : adds_none p (first_item xs).
Proof. intros w; destruct xs; reflexivity. Qed.

Lemma adds_none_emit (e : event) : p e = false -> adds_none p (emit e).
Proof.
  intros He w; simpl; rewrite filter_app; simpl; rewrite He; apply app_nil_r.
Qed.

Lemma adds_none_print (line : string) : adds_none p (print line).
Proof. apply adds_none_emit, p_device; reflexivity. Qed.

Lemma adds_none_speak env (text : string) : adds_none p (speak env text).
Proof.
  intros w; rewrite speak_run; simpl; rewrite filter_app, filter_spoken.
  - apply app_nil_r.
  - intros s; apply p_device; reflexivity.
  - intros s; apply p_device; reflexivity.
  - apply p_device; reflexivity.
Qed.

Lemma adds_none_bind {A B} (c : M A) (k : A -> M B) :
  adds_none p c -> (forall a, adds_none p (k a)) -> adds_none p (bind c k).
Proof.
  intros Hc Hk w; unfold bind; specialize (Hc w).
  destruct (c w) as [[a|e] w1]; simpl in Hc; [|exact Hc].
  now rewrite Hk.
Qed.

Lemma adds_none_try {A} (body : M A) (handles : error -> bool)
  (handler : error -> M A) :
  adds_none p body -> (forall e, adds_none p (handler e)) ->
  adds_none p (try_except body handles handler).
Proof.
  intros Hb Hh w; unfold try_except; specialize (Hb w).
  destruct (body w) as [[a|[code|e|]] w1]; simpl in Hb; try exact Hb.
  destruct (handles e); [|exact Hb].
  now rewrite Hh.
Qed.

Lemma adds_none_for_each {A} (items : list A) (body : A -> M unit) :
  (forall x, adds_none p (body x)) -> adds_none p (for_each items body).
Proof.
  intros Hb; induction items as [|x items IH]; simpl.
  - apply adds_none_ret.
  - apply adds_none_bind; [apply Hb | intros _; exact IH].
Qed.

Lemma adds_none_report env df result name_col search :
  adds_none p (report env df result name_col search).
Proof.
  unfold report; apply adds_none_bind; [apply adds_none_read|intros r].
  destruct (negb (Pandas.empty r)); [|apply adds_none_speak].
  apply adds_none_bind; [apply adds_none_print|intros _].
  apply adds_none_bind; [apply adds_none_emit, p_device; reflexivity|intros _].
  apply adds_none_bind; [apply adds_none_print|intros _].
  apply adds_none_bind; [apply adds_none_first_item|intros row].
  apply adds_none_bind; [apply adds_none_read|intros d].
  apply adds_none_bind; [apply adds_none_speak|intros _].
  apply adds_none_bind; [|intros _; apply adds_none_speak].
  apply adds_none_for_each; intros x; apply adds_none_speak.
Qed.

Lemma adds_none_iteration env df name_col line :
  adds_none p (iteration env df name_col line).
Proof.
  unfold iteration.
  destruct (String.eqb _ "exit").
  { apply adds_none_bind; [apply adds_none_speak|intros _; apply adds_none_ret]. }
  destruct (String.eqb _ "").
  { apply adds_none_bind; [apply adds_none_speak|intros _; apply adds_none_ret]. }
  apply adds_none_bind; [apply adds_none_read|intros d].
  apply adds_none_bind; [apply adds_none_lift|intros r].
  apply adds_none_bind; [apply adds_none_alloc|intros res].
  apply adds_none_bind; [apply adds_none_report|intros _; apply adds_none_ret].
Qed.

Lemma adds_none_search_loop env df name_col lines :
  adds_none p (search_loop env df name_col lines).
Proof.
  induction lines as [|line rest IH]; simpl search_loop;
    (apply adds_none_bind; [apply adds_none_emit, p_device; reflexivity|intros _]).
  - apply adds_none_raise.
  - apply adds_none_bind; [apply adds_none_iteration|intros [|]].
    + apply adds_none_ret.
    + exact IH.
Qed.

Lemma adds_none_interactive_search env df :
  adds_none p (interactive_search env df).
Proof.
  unfold interactive_search, first_column.
  apply adds_none_bind.
  - apply adds_none_bind; [apply adds_none_read|intros d].
    destruct (columns d); [apply adds_none_raise | apply adds_none_ret].
  - intros c; apply adds_none_bind; [apply adds_none_speak|intros _].
    apply adds_none_search_loop.
Qed.

Lemma adds_none_locate_table env res : adds_none p (locate_table env res).
Proof.
  unfold locate_table; destruct (find_wikitable env (text res)).
  - apply adds_none_ret.
  - apply adds_none_bind; [apply adds_none_speak|intros _; apply adds_none_raise].
Qed.

Lemma adds_none_read_headers env table : adds_none p (read_headers env table).
Proof.
  unfold read_headers; apply adds_none_try.
  - apply adds_none_bind; [apply adds_none_first_item|intros r; apply adds_none_ret].
  - intros e; apply adds_none_bind;
      [apply adds_none_speak|intros _; apply adds_none_raise].
Qed.

Lemma adds_none_build_frame rows headers : adds_none p (build_frame rows headers).
Proof.
  unfold build_frame.
  apply adds_none_bind; [apply adds_none_lift|intros d].
  apply adds_none_bind; [apply adds_none_alloc|intros df].
  apply adds_none_bind; [apply adds_none_print|intros _].
  apply adds_none_bind; [apply adds_none_print|intros _].
  apply adds_none_bind; [apply adds_none_read|intros d'].
  apply adds_none_bind;
    [|intros _; apply adds_none_bind;
                  [apply adds_none_print|intros _; apply adds_none_ret]].
  apply adds_none_for_each; intros [i col]; apply adds_none_print.
Qed.

End Selection.

Lemma device_only_get : device_only is_get.
Proof. intros [] H; try reflexivity; discriminate. Qed.

Lemma device_only_export : device_only is_export.
Proof. intros [] H; try reflexivity; discriminate. Qed.

(** The output of a run is the console of the script, followed by the
    interpreter's report when an exception reached the top. *)
Lemma run_output env :
  exists status report,
    run env = Some (status, console (snd (script env initial_world)) ++ report)
    /\ (report = [] \/ exists e, report = [ETraceback e]).
Proof.
  unfold run; pose proof (script_in_model env initial_world) as Hin.
  destruct (script env initial_world) as [[u|[code|e|]] w]; simpl.
  - exists 0%Z, []; rewrite app_nil_r; auto.
  - exists code, []; rewrite app_nil_r; auto.
  - exists 1%Z, [ETraceback e]; eauto.
  - exfalso; now apply Hin.
Qed.

Lemma filter_report (p : event -> bool) (report : list event) :
  device_only p ->
  report = [] \/ (exists e, report = [ETraceback e]) ->
  filter p report = [].
Proof.
  intros Hp [->|[e ->]]; [reflexivity|].
  simpl; now rewrite Hp.
Qed.

Lemma filter_after_speak (p : event -> bool) env text w :
  device_only p ->
  filter p (console (after_speak env text w)) = filter p (console w).
Proof.
  intros Hp; pose proof (adds_none_speak p Hp env text w) as H.
  now rewrite speak_run in H.
Qed.

(** The fetch makes its one request, whatever comes of it. *)
Lemma fetch_one_get env w :
  filter is_get (console (snd (fetch env w)))
  = filter is_get (console w) ++ [EGet url request_headers].
Proof.
  assert (Hs : forall text w',
             filter is_get (console (after_speak env text w'))
             = filter is_get (console w')).
  { intros text w'; simpl; rewrite filter_app, filter_spoken by reflexivity.
    apply app_nil_r. }
  destruct (http_get env url request_headers) as [e|res] eqn:Hget.
  - destruct (is_RequestException e) eqn:Hreq.
    + rewrite (fetch_failure env (str_of_error e)) by (left; eauto).
      simpl snd; rewrite Hs; simpl; now rewrite filter_app.
    + unfold fetch, try_except; fold request_headers.
      rewrite (bind_raise _ _ _ _ _ (requests_get_raise env e w Hget)), Hreq.
      simpl; now rewrite filter_app.
  - destruct (Z_lt_dec (status_code res) 400) as [Hlo|Hlo].
    + rewrite (fetch_ok env res w Hget) by (left; exact Hlo).
      simpl; now rewrite filter_app.
    + destruct (Z_le_dec 600 (status_code res)) as [Hhi|Hhi].
      * rewrite (fetch_ok env res w Hget) by (right; exact Hhi).
        simpl; now rewrite filter_app.
      * rewrite (fetch_failure env (http_error_message res))
          by (right; exists res; repeat split; [exact Hget | lia | lia]).
        simpl snd; rewrite Hs; simpl; now rewrite filter_app.
Qed.

Lemma adds_none_export env df (p : event -> bool) :
  device_only p -> p (EToCsv csv_path) = false -> p (EToExcel xlsx_path) = false ->
  adds_none p (export env df).
Proof.
  intros Hp H1 H2; unfold export; fold csv_path xlsx_path.
  apply adds_none_try.
  - apply adds_none_bind.
    + unfold df_to_csv.
      apply adds_none_bind; [apply adds_none_read|intros d].
      apply adds_none_bind; [now apply adds_none_emit|intros _].
      destruct (to_csv env d csv_path);
        [apply adds_none_raise | apply adds_none_ret].
    + intros _; apply adds_none_bind; [|intros _; now apply adds_none_speak].
      unfold df_to_excel.
      apply adds_none_bind; [apply adds_none_read|intros d].
      apply adds_none_bind; [now apply adds_none_emit|intros _].
      destruct (to_excel env d xlsx_path);
        [apply adds_none_raise | apply adds_none_ret].
  - intros e; now apply adds_none_speak.
Qed.

Lemma adds_none_get_process env res : adds_none is_get (process env res).
Proof.
  pose proof device_only_get as Hp; unfold process.
  apply adds_none_bind; [now apply adds_none_locate_table|intros table].
  apply adds_none_bind; [now apply adds_none_read_headers|intros headers].
  apply adds_none_bind; [now apply adds_none_build_frame|intros df].
  apply adds_none_bind; [now apply adds_none_export|intros _].
  now apply adds_none_interactive_search.
Qed.

(** X13. In every run the script calls [requests.get] at most once,
    and when it does the call is for the fixed address with the fixed
    User-Agent header.  When the speech engine does not start, it never
    calls it.  No failure, no status and no input make it call again. *)
Theorem X13_at_most_one_request_per_run :
  forall env,
    exists status out,
      run env = Some (status, out)
      /\ (filter is_get out = []
          \/ filter is_get out = [EGet url request_headers])
      /\ (tts_init env <> None -> filter is_get out = []).
Proof.
  intros env; destruct (tts_init env) as [e|] eqn:Hinit.
  - rewrite (init_failure_unwinds env e Hinit); do 2 eexists.
    split; [reflexivity|split; [now left | reflexivity]].
  - destruct (run_output env) as (status & report & Hrun & Hrep).
    exists status; eexists; split; [exact Hrun|].
    split; [right | congruence].
    rewrite filter_app, (filter_report _ _ device_only_get Hrep), app_nil_r.
    rewrite (script_start env _ Hinit); unfold bind.
    pose proof (fetch_one_get env
                  (after_speak env "Starting data fetch from Wikipedia..."
                     initial_world)) as Hf.
    rewrite (filter_after_speak _ _ _ _ device_only_get) in Hf.
    destruct (fetch env _) as [[res|ex] w1]; simpl snd in Hf.
    + rewrite adds_none_get_process; exact Hf.
    + exact Hf.
Qed.

Lemma exports_once_after {A B} (c : M A) (k : A -> M B) :
  adds_none is_export c -> (forall a, exports_once (k a)) ->
  exports_once (bind c k).
Proof.
  intros Hc Hk w; unfold bind; specialize (Hc w).
  destruct (c w) as [[a|e] w1]; simpl in Hc.
  - destruct (Hk a w1) as (l & Hl & Ht); exists l; split; [|exact Ht].
    now rewrite Hl, Hc.
  - exists []; split; [|now left].
    simpl; now rewrite Hc, app_nil_r.
Qed.

Lemma exports_once_before {A B} (c : M A) (k : A -> M B) :
  exports_once c -> (forall a, adds_none is_export (k a)) ->
  exports_once (bind c k).
Proof.
  intros Hc Hk w; unfold bind; destruct (Hc w) as (l & Hl & Ht).
  destruct (c w) as [[a|e] w1]; simpl in Hl; exists l; split; try exact Ht.
  - now rewrite Hk.
  - exact Hl.
Qed.

Lemma exports_once_export env df : exports_once (export env df).
Proof.
  intros w; destruct (nth_error (frames w) df) as [d|] eqn:Hd.
  - rewrite (export_run env df d w Hd); simpl snd.
    destruct (to_csv env d csv_path) as [e|];
      [|destruct (to_excel env d xlsx_path) as [e|]];
      rewrite (filter_after_speak _ _ _ _ device_only_export);
      simpl; rewrite filter_app; eexists; (split; [reflexivity|]);
      unfold export_trace; auto.
  - exists []; split; [|now left].
    unfold export, try_except, bind, df_to_csv, bind, read_frame.
    rewrite Hd; simpl; now rewrite app_nil_r.
Qed.

Lemma exports_once_process env res : exports_once (process env res).
Proof.
  pose proof device_only_export as Hp; unfold process.
  apply exports_once_after; [now apply adds_none_locate_table|intros table].
  apply exports_once_after; [now apply adds_none_read_headers|intros headers].
  apply exports_once_after; [now apply adds_none_build_frame|intros df].
  apply exports_once_before; [apply exports_once_export|intros _].
  now apply adds_none_interactive_search.
Qed.

Lemma adds_none_export_fetch env : adds_none is_export (fetch env).
Proof.
  pose proof device_only_export as Hp; unfold fetch.
  apply adds_none_try.
  - apply adds_none_bind.
    + unfold requests_get.
      apply adds_none_bind; [now apply adds_none_emit|intros _].
      destruct (http_get env url _); [apply adds_none_raise | apply adds_none_ret].
    + intros res; apply adds_none_bind; [|intros _; apply adds_none_ret].
      unfold raise_for_status.
      destruct (_ && _)%bool; [apply adds_none_raise|].
      destruct (_ && _)%bool; [apply adds_none_raise | apply adds_none_ret].
  - intros e; apply adds_none_bind;
      [now apply adds_none_speak | intros _; apply adds_none_raise].
Qed.

(** X14. In every run each export is called at most once, the CSV
    before the spreadsheet, and the spreadsheet never without the CSV:
    the calls of a run are none, [to_csv] alone, or [to_csv] and then
    [to_excel], each with its fixed file name.  The search loop writes
    no file. *)
Theorem X14_exports_happen_once_in_order :
  forall env,
    exists status out,
      run env = Some (status, out)
      /\ export_trace (filter is_export out).
Proof.
  intros env; destruct (tts_init env) as [e|] eqn:Hinit.
  - rewrite (init_failure_unwinds env e Hinit); do 2 eexists.
    split; [reflexivity | now left].
  - destruct (run_output env) as (status & report & Hrun & Hrep).
    exists status; eexists; split; [exact Hrun|].
    rewrite filter_app, (filter_report _ _ device_only_export Hrep), app_nil_r.
    rewrite (script_start env _ Hinit); unfold bind.
    pose proof (adds_none_export_fetch env
                  (after_speak env "Starting data fetch from Wikipedia..."
                     initial_world)) as Hf.
    rewrite (filter_after_speak _ _ _ _ device_only_export) in Hf.
    simpl in Hf.
    destruct (fetch env _) as [[res|ex] w1]; simpl snd in Hf.
    + destruct (exports_once_process env res w1) as (l & Hl & Ht).
      rewrite Hl, Hf; exact Ht.
    + simpl snd; rewrite Hf; now left.
Qed.

(* ================================================================== *)
(** ** Further properties: the exit status *)
(* ================================================================== *)

Lemma exits_with_1_ret {A} (a : A) : exits_with_1 (ret a).
Proof. intros w code H; discriminate. Qed.

Lemma exits_with_1_raise_exc {A} (e : error) : exits_with_1 (@raise A (Exc e)).
Proof. intros w code H; discriminate. Qed.

Lemma exits_with_1_exit {A} : exits_with_1 (@exit A 1%Z).
Proof. intros w code H; now injection H as <-. Qed.

Lemma exits_with_1_emit (e : event) : exits_with_1 (emit e).
Proof. intros w code H; discriminate. Qed.

Lemma exits_with_1_print (line : string) : exits_with_1 (print line).
Proof. intros w code H; discriminate. Qed.

Lemma exits_with_1_read (ref : nat) : exits_with_1 (read_frame ref).
Proof.
  intros w code; unfold read_frame; destruct (nth_error _ _); discriminate.
Qed.

Lemma exits_with_1_alloc (d : DataFrame) : exits_with_1 (alloc_frame d).
Proof. intros w code H; discriminate. Qed.

Lemma exits_with_1_first_item {A} (xs : list A) : exits_with_1 (first_item xs).
Proof. intros w code; destruct xs; discriminate. Qed.

Lemma exits_with_1_speak env (text : string) : exits_with_1 (speak env text).
Proof. intros w code; rewrite speak_run; discriminate. Qed.

Lemma exits_with_1_bind {A B} (c : M A) (k : A -> M B) :
  exits_with_1 c -> (forall a, exits_with_1 (k a)) -> exits_with_1 (bind c k).
Proof.
  intros Hc Hk w code; unfold bind; specialize (Hc w code).
  destruct (c w) as [[a|e] w1]; [apply Hk|].
  simpl in *; intros H; apply Hc; now injection H as ->.
Qed.

Lemma exits_with_1_try {A} (body : M A) (handles : error -> bool)
  (handler : error -> M A) :
  exits_with_1 body -> (forall e, exits_with_1 (handler e)) ->
  exits_with_1 (try_except body handles handler).
Proof.
  intros Hb Hh w code; unfold try_except; specialize (Hb w code).
  destruct (body w) as [[a|[c|e|]] w1]; try exact Hb.
  destruct (handles e); [apply Hh | discriminate].
Qed.

Lemma exits_with_1_for_each {A} (items : list A) (body : A -> M unit) :
  (forall x, exits_with_1 (body x)) -> exits_with_1 (for_each items body).
Proof.
  intros Hb; induction items as [|x items IH]; simpl.
  - apply exits_with_1_ret.
  - apply exits_with_1_bind; [apply Hb | intros _; exact IH].
Qed.

Lemma exits_with_1_filter d name_col pattern :
  exits_with_1 (lift (filter_frame d name_col pattern)).
Proof.
  intros w code; unfold lift, filter_frame, Pandas.getitem; simpl.
  destruct (Pandas.positions name_col (columns d)) as [|i [|j ps]]; simpl;
    try discriminate.
  unfold Pandas.str_contains; destruct (Re.compile pattern); discriminate.
Qed.

Lemma exits_with_1_new_frame rows headers :
  exits_with_1 (lift (Pandas.DataFrame_of_rows rows headers)).
Proof.
  intros w code; unfold lift, Pandas.DataFrame_of_rows; simpl.
  destruct rows; [discriminate|].
  destruct (_ =? _); discriminate.
Qed.

Create HintDb exit_db.

#[local] Hint Resolve exits_with_1_ret exits_with_1_raise_exc exits_with_1_exit
  exits_with_1_emit exits_with_1_print exits_with_1_read exits_with_1_alloc
  exits_with_1_first_item exits_with_1_speak exits_with_1_new_frame
  : exit_db.

Ltac exit_steps :=
  repeat first
    [ solve [auto with exit_db]
    | apply exits_with_1_for_each; intros ?
    | apply exits_with_1_try; [| intros ?]
    | apply exits_with_1_bind; [| intros ?]
    | match goal with
      | |- exits_with_1 (match ?x with _ => _ end) => destruct x
      end ].

Lemma exits_with_1_report env df result name_col search :
  exits_with_1 (report env df result name_col search).
Proof. unfold report; exit_steps. Qed.

#[local] Hint Resolve exits_with_1_report : exit_db.

Lemma exits_with_1_iteration env df name_col line :
  exits_with_1 (iteration env df name_col line).
Proof.
  unfold iteration.
  destruct (String.eqb _ "exit"); [exit_steps|].
  destruct (String.eqb _ ""); [exit_steps|].
  apply exits_with_1_bind; [auto with exit_db|intros d].
  apply exits_with_1_bind; [apply exits_with_1_filter|intros r].
  exit_steps.
Qed.

Lemma exits_with_1_search_loop env df name_col lines :
  exits_with_1 (search_loop env df name_col lines).
Proof.
  induction lines as [|line rest IH]; simpl search_loop.
  - exit_steps.
  - apply exits_with_1_bind; [auto with exit_db|intros _].
    apply exits_with_1_bind; [apply exits_with_1_iteration|intros [|]].
    + apply exits_with_1_ret.
    + exact IH.
Qed.

#[local] Hint Resolve exits_with_1_search_loop : exit_db.

Lemma exits_with_1_process env res : exits_with_1 (process env res).
Proof.
  unfold process.
  apply exits_with_1_bind; [unfold locate_table; exit_steps|intros table].
  apply exits_with_1_bind; [unfold read_headers; exit_steps|intros headers].
  apply exits_with_1_bind; [unfold build_frame; exit_steps|intros df].
  apply exits_with_1_bind;
    [unfold export, df_to_csv, df_to_excel; exit_steps|intros _].
  unfold interactive_search, first_column; exit_steps.
Qed.

Lemma exits_with_1_script env : exits_with_1 (script env).
Proof.
  unfold script.
  apply exits_with_1_bind; [unfold init_engine; exit_steps|intros _].
  apply exits_with_1_bind; [auto with exit_db|intros _].
  apply exits_with_1_bind; [|intros res; apply exits_with_1_process].
  unfold fetch, requests_get, raise_for_status; exit_steps.
Qed.

Lemma bind_ok_inv {A B} (c : M A) (k : A -> M B) (w : world) (b : B) :
  fst (bind c k w) = Ok b ->
  exists a w', c w = (Ok a, w') /\ fst (k a w') = Ok b.
Proof.
  unfold bind; destruct (c w) as [[a|e] w1]; [eauto | discriminate].
Qed.

Lemma loop_ok_sentinel env df name_col lines :
  forall w,
    fst (search_loop env df name_col lines w) = Ok tt ->
    Exists (fun l => is_sentinel l = true) lines.
Proof.
  induction lines as [|line rest IH]; intros w.
  - simpl search_loop; run_step; discriminate.
  - rewrite search_loop_cons.
    pose proof (iteration_not_break env df name_col line
                  (log [EPrompt prompt] w)) as Hnb.
    destruct (iteration env df name_col line (log [EPrompt prompt] w))
      as [[[|]|e] w'].
    + intros _; apply Exists_cons_hd.
      destruct (is_sentinel line) eqn:Hs; [reflexivity|].
      exfalso; apply sentinel_false in Hs; now apply (Hnb Hs).
    + intros H; apply Exists_cons_tl; eapply IH; exact H.
    + discriminate.
Qed.

Lemma script_ok_sentinel env w :
  fst (script env w) = Ok tt ->
  Exists (fun l => is_sentinel l = true) (stdin env).
Proof.
  unfold script; intros H.
  apply bind_ok_inv in H as (_ & w1 & _ & H).
  apply bind_ok_inv in H as (_ & w2 & _ & H).
  apply bind_ok_inv in H as (res & w3 & _ & H).
  unfold process in H.
  apply bind_ok_inv in H as (table & w4 & _ & H).
  apply bind_ok_inv in H as (headers & w5 & _ & H).
  apply bind_ok_inv in H as (df & w6 & _ & H).
  apply bind_ok_inv in H as (_ & w7 & _ & H).
  unfold interactive_search in H.
  apply bind_ok_inv in H as (name_col & w8 & _ & H).
  apply bind_ok_inv in H as (_ & w9 & _ & H).
  eapply loop_ok_sentinel; exact H.
Qed.

(** X11. A run ends with status 0 only when one of the typed lines was
    the sentinel: neither an [exit] the script performs itself nor a
    failure it does not catch gives status 0. *)
Theorem X11_status_zero_only_after_the_sentinel :
  forall env,
    exists status out,
      run env = Some (status, out)
      /\ (status = 0%Z -> Exists (fun l => is_sentinel l = true) (stdin env)).
Proof.
  intros env; unfold run.
  pose proof (script_in_model env initial_world) as Hin.
  pose proof (exits_with_1_script env initial_world) as Hex.
  pose proof (script_ok_sentinel env initial_world) as Hok.
  destruct (script env initial_world) as [[[]|[code|e|]] w]; simpl in *.
  - do 2 eexists; split; [reflexivity|auto].
  - rewrite (Hex code eq_refl); do 2 eexists.
    split; [reflexivity|discriminate].
  - do 2 eexists; split; [reflexivity|discriminate].
  - exfalso; now apply Hin.
Qed.
